(** * Scrapper: a shallow embedding of [main.go]

    The program drives a headless browser through chromedp: it reads one URL
    from the command line, creates an output folder, navigates, and stores the
    page's HTML, a screenshot and the list of anchor targets.

    Everything the program does to the outside (standard output, the logger,
    the file system, the browser session, process exit) is recorded as a trace
    of events; everything the outside answers is read from a [World]. *)

From Stdlib Require Import ZArith List String Ascii Bool Lia DecimalString.
Import ListNotations.

#[local] Set Warnings "-register-all".

Local Open Scope list_scope.
Local Open Scope string_scope.

(** ** Go values *)

(** [int64]: the status code is only compared and printed, never computed
    with, so no wrap-around occurs anywhere in the program. *)
Definition int64 := Z.

(** A Go [error] is carried by its message ([err.Error()]). *)
Definition error := string.

Inductive Result (A : Type) : Type :=
| Ok (a : A)
| Err (e : error).
Arguments Ok {A} a.
Arguments Err {A} e.

Definition is_ok {A} (r : Result A) : bool :=
  match r with Ok _ => true | Err _ => false end.

(** The line feed the format strings end in. *)
Definition LF : string := String (ascii_of_nat 10) "".

(** [%d] of an integer. *)
Definition fmt_d (n : Z) : string := NilZero.string_of_int (Z.to_int n).

(** [[]byte(s)] *)
Definition bytes (s : string) : list Byte.byte := list_byte_of_string s.

(** [strings.Join]: the cases on [len(elems)], then the loop writing the
    separator and the next element into the builder. *)
Definition strings_Join (elems : list string) (sep : string) : string :=
  match elems with
  | [] => ""
  | [e] => e
  | e :: rest => fold_left (fun b s => b ++ sep ++ s) rest e
  end.

(** [filepath.Join] of two elements on a slash-separated system.  The
    program joins "scraped_data" with the timestamp followed by a host name,
    and the result with a fixed file name; a host name holds no slash
    ([url.Parse] cuts the authority at the first one), so the [Clean] inside
    [Join] leaves these paths as they are. *)
Definition filepath_Join (dir name : string) : string := dir ++ "/" ++ name.

(** ** Events and the run monad *)

(** Resource type of a network response (cdproto [network.ResourceType]). *)
Inductive ResourceType :=
| ResourceTypeDocument | ResourceTypeStylesheet | ResourceTypeImage
| ResourceTypeScript | ResourceTypeXHR | ResourceTypeOther.

(** What the target listener is called with. *)
Inductive TargetEvent :=
| EventResponseReceived (Type_ : ResourceType) (Status : int64) (StatusText : string)
| EventOther.

(** The actions handed to [chromedp.Run]. *)
Inductive Action :=
| Navigate (url : string)
| OuterHTML (sel : string)
| FullScreenshot (quality : Z)
| Evaluate (expression : string).

(** The three contexts of [main], each with its cancel function. *)
Inductive Context := AllocCtx | BrowserCtx | TimeoutCtx.

(** One observable effect of the process.  The standard logger's date prefix
    is left out of [ELog]. *)
Inductive Event :=
| EStdout (s : string)
| ELog (s : string)
| EMkdirAll (path : string) (perm : Z)
| ENewExecAllocator (userAgent : string) (width height : Z) (flags : list (string * bool))
| ENewContext
| EWithTimeout (seconds : Z)
| EListenTarget
| ERun (a : Action)
| EWriteFile (path : string) (data : list Byte.byte) (perm : Z)
| ECancel (c : Context)
| EExit (code : Z).

Definition Trace := list Event.

(** A computation emits events and either yields a value or has ended the
    process ([os.Exit], reached through [log.Fatal]): then nothing that follows
    it in the source runs. *)
Definition M (A : Type) : Type := (Trace * option A)%type.

Definition ret {A} (a : A) : M A := ([], Some a).

Definition bind {A B} (m : M A) (k : A -> M B) : M B :=
  match snd m with
  | None => (fst m, None)
  | Some a => ((fst m ++ fst (k a))%list, snd (k a))
  end.

Definition emit (e : Event) : M unit := ([e], Some tt).

Declare Scope run_scope.
Delimit Scope run_scope with run.
Notation "x <- m ;; k" := (bind m (fun x => k))
  (at level 61, m at next level, right associativity) : run_scope.
Notation "m ;; k" := (bind m (fun _ => k))
  (at level 61, right associativity) : run_scope.
Local Open Scope run_scope.

Definition trace {A} (m : M A) : Trace := fst m.
Definition exited {A} (m : M A) : bool :=
  match snd m with None => true | Some _ => false end.

Definition fmt_Print (s : string) : M unit := emit (EStdout s).
Definition log_Print (s : string) : M unit := emit (ELog s).

(** [log.Fatal]: the message, then [os.Exit(1)]. *)
Definition log_Fatal {A} (s : string) : M A := ([ELog s; EExit 1], None).

(** ** Network request status code analysis *)

(** [listNetworkRequests], case by case in the order of the [switch]. *)
Definition listNetworkRequests (code : int64) (text : string) : M unit :=
  if (code =? 0)%Z then ret tt
  else
    fmt_Print ("Request network: " ++ fmt_d code ++ " (" ++ text ++ ")" ++ LF) ;;
    if ((200 <=? code) && (code <? 300))%Z then
      fmt_Print ("Request SUCCESSFUL: Site is accessible." ++ LF)
    else if ((300 <=? code) && (code <? 400))%Z then
      fmt_Print ("Request REDIRECTION (" ++ fmt_d code
                 ++ "): Site is redirecting to another address." ++ LF)
    else if (code =? 403)%Z then
      log_Print ("Request FORBIDDEN (403): Access denied (WAF or Bot Protection)." ++ LF)
    else if (code =? 404)%Z then
      log_Print ("Request NOT FOUND (404): Page does not exist." ++ LF)
    else if ((400 <=? code) && (code <? 500))%Z then
      log_Print ("Request CLIENT ERROR (" ++ fmt_d code ++ "): " ++ text ++ LF)
    else if (500 <=? code)%Z then
      log_Print ("Request SERVER ERROR (" ++ fmt_d code
                 ++ "): Target site is down or faulty." ++ LF)
    else
      log_Print ("Request UNKNOWN STATUS: " ++ fmt_d code ++ LF).

(** ** The page script of [extractLinks]

    The script runs inside the browser.  Its text is the [javascript]
    constant below; its meaning is given here on a small universe of
    JavaScript values, enough for what an anchor's [href] can hold: a string
    (HTML anchors), an object with a [baseVal] (SVG anchors), or anything else
    a page may have put there.  Strings are byte strings, as they reach Go. *)

Inductive JsValue :=
| JsUndefined
| JsNull
| JsBool (b : bool)
| JsString (s : string)
| JsObject (props : list (string * JsValue))
| JsArray (elems : list JsValue).

(** [typeof v] *)
Definition typeof (v : JsValue) : string :=
  match v with
  | JsUndefined => "undefined"
  | JsNull => "object"
  | JsBool _ => "boolean"
  | JsString _ => "string"
  | JsObject _ => "object"
  | JsArray _ => "object"
  end.

(** [v === w] for a string [w] *)
Definition js_eq_string (v : JsValue) (w : string) : bool :=
  match v with
  | JsString s => String.eqb s w
  | _ => false
  end.

(** [v === null] *)
Definition js_is_null (v : JsValue) : bool :=
  match v with JsNull => true | _ => false end.

Fixpoint lookup_prop (name : string) (props : list (string * JsValue)) : JsValue :=
  match props with
  | [] => JsUndefined
  | (k, v) :: rest => if String.eqb k name then v else lookup_prop name rest
  end.

(** [v.name], read on a value that is neither [undefined] nor [null]. *)
Definition js_get (v : JsValue) (name : string) : JsValue :=
  match v with
  | JsObject props => lookup_prop name props
  | _ => JsUndefined
  end.

(** The arrow function given to [map]. *)
Definition script_map (a : JsValue) : JsValue :=
  if String.eqb (typeof (js_get a "href")) "object" && negb (js_is_null (js_get a "href"))
  then js_get (js_get a "href") "baseVal"
  else js_get a "href".

(** The arrow function given to [filter]. *)
Definition script_filter (href : JsValue) : bool :=
  String.eqb (typeof href) "string" && negb (js_eq_string href "").

Definition dquote : ascii := ascii_of_nat 34.
Definition backslash : ascii := ascii_of_nat 92.

Definition hex_digit (n : N) : ascii :=
  if (n <? 10)%N then ascii_of_N (48 + n) else ascii_of_N (87 + n).

(** One character of a quoted JSON string (ECMAScript [QuoteJSONString]). *)
Definition quote_char (c : ascii) : string :=
  let n := N_of_ascii c in
  if (n =? 8)%N then String backslash "b"
  else if (n =? 9)%N then String backslash "t"
  else if (n =? 10)%N then String backslash "n"
  else if (n =? 12)%N then String backslash "f"
  else if (n =? 13)%N then String backslash "r"
  else if (n =? 34)%N then String backslash (String dquote "")
  else if (n =? 92)%N then String backslash (String backslash "")
  else if (n <? 32)%N then
    String backslash ("u00" ++ String (hex_digit (n / 16)) (String (hex_digit (n mod 16)) ""))
  else String c "".

Fixpoint quote_body (s : string) : string :=
  match s with
  | EmptyString => ""
  | String c r => quote_char c ++ quote_body r
  end.

Definition QuoteJSONString (s : string) : string :=
  String dquote (quote_body s ++ String dquote "").

(** ECMAScript [SerializeJSONProperty]: [None] stands for [undefined]. *)
Fixpoint SerializeJSONProperty (v : JsValue) : option string :=
  match v with
  | JsUndefined => None
  | JsNull => Some "null"
  | JsBool b => Some (if b then "true" else "false")
  | JsString s => Some (QuoteJSONString s)
  | JsObject props =>
      Some ("{" ++ String.concat ","
              (flat_map (fun kv => match SerializeJSONProperty (snd kv) with
                                   | Some t => [QuoteJSONString (fst kv) ++ ":" ++ t]
                                   | None => []
                                   end) props) ++ "}")
  | JsArray elems =>
      Some ("[" ++ String.concat ","
              (map (fun e => match SerializeJSONProperty e with
                             | Some t => t
                             | None => "null"
                             end) elems) ++ "]")
  end.

(** [JSON.stringify(v)] *)
Definition JSON_stringify (v : JsValue) : JsValue :=
  match SerializeJSONProperty v with
  | Some s => JsString s
  | None => JsUndefined
  end.

(** The value of the whole script, for the anchors
    [Array.from(document.querySelectorAll('a'))] of the page. *)
Definition script_value (anchors : list JsValue) : JsValue :=
  JSON_stringify (JsArray (filter script_filter (map script_map anchors))).

(** ** [json.Unmarshal] into a [[]string]

    The decoder of encoding/json for the one target type the program uses,
    as a machine that reads the input byte by byte.  It accepts white space
    around tokens, [null] for the whole value (the slice stays nil) and for an
    element (the element stays the empty string), and string literals with
    their escapes; every other input, well-formed JSON of another shape
    included, makes [Unmarshal] return an error.  Bytes from 0x80 on are
    copied, as the decoder does for well-formed UTF-8. *)

Definition is_space (c : ascii) : bool :=
  let n := N_of_ascii c in
  (n =? 32)%N || (n =? 9)%N || (n =? 13)%N || (n =? 10)%N.

Definition hex_val (c : ascii) : option N :=
  let n := N_of_ascii c in
  if (48 <=? n)%N && (n <=? 57)%N then Some (n - 48)%N
  else if (97 <=? n)%N && (n <=? 102)%N then Some (n - 87)%N
  else if (65 <=? n)%N && (n <=? 70)%N then Some (n - 55)%N
  else None.

(** The character a one-letter escape stands for. *)
Definition unescape (c : ascii) : option ascii :=
  let n := N_of_ascii c in
  if (n =? 34)%N || (n =? 92)%N || (n =? 47)%N then Some c
  else if (n =? 98)%N then Some (ascii_of_N 8)
  else if (n =? 102)%N then Some (ascii_of_N 12)
  else if (n =? 110)%N then Some (ascii_of_N 10)
  else if (n =? 114)%N then Some (ascii_of_N 13)
  else if (n =? 116)%N then Some (ascii_of_N 9)
  else None.

Definition byte_str (n : N) : string := String (ascii_of_N n) "".

(** [utf8.EncodeRune] *)
Definition utf8_EncodeRune (r : N) : string :=
  if (r <? 128)%N then byte_str r
  else if (r <? 2048)%N then
    byte_str (192 + r / 64) ++ byte_str (128 + r mod 64)
  else if ((55296 <=? r) && (r <? 57344))%N || (1114111 <? r)%N then
    byte_str 239 ++ byte_str 191 ++ byte_str 189
  else if (r <? 65536)%N then
    byte_str (224 + r / 4096) ++ byte_str (128 + (r / 64) mod 64)
      ++ byte_str (128 + r mod 64)
  else
    byte_str (240 + r / 262144) ++ byte_str (128 + (r / 4096) mod 64)
      ++ byte_str (128 + (r / 64) mod 64) ++ byte_str (128 + r mod 64).

Definition ReplacementChar : N := 65533.

Definition is_high_surrogate (r : N) : bool := ((55296 <=? r) && (r <? 56320))%N.
Definition is_low_surrogate (r : N) : bool := ((56320 <=? r) && (r <? 57344))%N.

(** [utf16.DecodeRune] on a high and a low surrogate *)
Definition utf16_DecodeRune (r1 r2 : N) : N :=
  ((r1 - 55296) * 1024 + (r2 - 56320) + 65536)%N.

Inductive DecState :=
| DBegin
| DFirst
| DElem (acc : list string)
| DStr (acc : list string) (cur : string) (hi : option N)
| DEsc (acc : list string) (cur : string) (hi : option N)
| DHex (acc : list string) (cur : string) (hi : option N) (ds : list N)
| DNull (top : bool) (acc : list string) (k : nat)
| DAfter (acc : list string)
| DEnd (acc : list string)
| DFail.

(** A high surrogate escape that found no partner becomes U+FFFD. *)
Definition flush (hi : option N) (cur : string) : string :=
  match hi with
  | Some _ => cur ++ utf8_EncodeRune ReplacementChar
  | None => cur
  end.

Definition begin_elem (acc : list string) (c : ascii) : DecState :=
  if Ascii.eqb c dquote then DStr acc "" None
  else if Ascii.eqb c "n" then DNull false acc 1
  else DFail.

(** A [\uXXXX] escape with no pending high surrogate before it. *)
Definition fresh_u4 (acc : list string) (cur : string) (r : N) : DecState :=
  if is_high_surrogate r then DStr acc cur (Some r)
  else DStr acc (cur ++ utf8_EncodeRune r) None.

Definition after_u4 (acc : list string) (cur : string) (hi : option N) (r : N) : DecState :=
  match hi with
  | Some h =>
      if is_low_surrogate r
      then DStr acc (cur ++ utf8_EncodeRune (utf16_DecodeRune h r)) None
      else fresh_u4 acc (cur ++ utf8_EncodeRune ReplacementChar) r
  | None => fresh_u4 acc cur r
  end.

Definition hex_value (ds : list N) : N :=
  fold_left (fun v d => (v * 16 + d)%N) ds 0%N.

Definition null_char (k : nat) : ascii :=
  match k with 0 => "n" | 1 => "u" | _ => "l" end%char.

Definition step (st : DecState) (c : ascii) : DecState :=
  match st with
  | DBegin =>
      if is_space c then DBegin
      else if Ascii.eqb c "[" then DFirst
      else if Ascii.eqb c "n" then DNull true [] 1
      else DFail
  | DFirst =>
      if is_space c then DFirst
      else if Ascii.eqb c "]" then DEnd []
      else begin_elem [] c
  | DElem acc =>
      if is_space c then DElem acc else begin_elem acc c
  | DStr acc cur hi =>
      if Ascii.eqb c dquote then DAfter (acc ++ [flush hi cur])
      else if Ascii.eqb c backslash then DEsc acc cur hi
      else if (N_of_ascii c <? 32)%N then DFail
      else DStr acc (flush hi cur ++ String c "") None
  | DEsc acc cur hi =>
      if Ascii.eqb c "u" then DHex acc cur hi []
      else match unescape c with
           | Some d => DStr acc (flush hi cur ++ String d "") None
           | None => DFail
           end
  | DHex acc cur hi ds =>
      match hex_val c with
      | Some d =>
          if (List.length ds <? 3)%nat then DHex acc cur hi (ds ++ [d])
          else after_u4 acc cur hi (hex_value (ds ++ [d]))
      | None => DFail
      end
  | DNull top acc k =>
      if Ascii.eqb c (null_char k) then
        if (k <? 3)%nat then DNull top acc (S k)
        else if top then DEnd [] else DAfter (acc ++ [""])
      else DFail
  | DAfter acc =>
      if is_space c then DAfter acc
      else if Ascii.eqb c "," then DElem acc
      else if Ascii.eqb c "]" then DEnd acc
      else DFail
  | DEnd acc => if is_space c then DEnd acc else DFail
  | DFail => DFail
  end.

Fixpoint run (st : DecState) (s : string) : DecState :=
  match s with
  | EmptyString => st
  | String c r => run (step st c) r
  end.

(** [json.Unmarshal(data, &links)] with [links] a nil [[]string]. *)
Definition json_Unmarshal (data : string) : Result (list string) :=
  match run DBegin data with
  | DEnd acc => Ok acc
  | _ => Err "invalid JSON for []string"
  end.

(** ** The world the process runs in *)

(** What one navigation does: the events the target listener is called with
    while it runs, and the error [chromedp.Run] returns. *)
Record NavReply := {
  nav_events : list TargetEvent;
  nav_err : option error
}.

(** The answers of everything outside the program.  The program is one
    straight line, so each call site runs at most once and has its own answer;
    the two navigations are told apart by their position. *)
Record World := {
  os_Args : list string;
  (** [url.Parse(rawURL)], then [Hostname()] of the result *)
  url_Parse : string -> Result string;
  (** [time.Now().Format("2006-01-02_15-04-05")] *)
  time_Now : string;
  os_MkdirAll : string -> option error;
  os_WriteFile : string -> list Byte.byte -> option error;
  navigate_1 : NavReply;
  navigate_2 : NavReply;
  outer_html : Result string;
  full_screenshot : Result (list Byte.byte);
  (** the string the script's value was stored into, or the error of [Run] *)
  evaluate : Result string
}.

Definition TAB : string := String (ascii_of_nat 9) "".
Definition DQ : string := String dquote "".

Definition javascript : string :=
  "JSON.stringify(Array.from(document.querySelectorAll('a')).map(a => {" ++ LF
  ++ TAB ++ TAB ++ "if (typeof a.href === 'object' && a.href !== null) {" ++ LF
  ++ TAB ++ TAB ++ TAB ++ "return a.href.baseVal; // SVG linkleri için" ++ LF
  ++ TAB ++ TAB ++ "}" ++ LF
  ++ TAB ++ TAB ++ "return a.href; // Normal linkler için" ++ LF
  ++ TAB ++ "}).filter(href => typeof href === 'string' && href !== " ++ DQ ++ DQ ++ "))".

(** What [chromedp.Evaluate(javascript, &jsonResult)] leaves in [jsonResult]
    when the browser evaluates the script on a page with these anchors. *)
Definition script_reply (anchors : list JsValue) : Result string :=
  match script_value anchors with
  | JsString s => Ok s
  | _ => Err "encountered an undefined value"
  end.

Definition userAgent : string :=
  "Mozilla/5.0 (Windows NT 10.0; Win64; x64) AppleWebKit/537.36 (KHTML, "
  ++ "like Gecko) Chrome/120.0.0.0 Safari/537.36".

Section Program.

Variable w : World.

(** The listener registered with [chromedp.ListenTarget]: it overwrites the
    two captured variables at every response of the main document. *)
Definition listener (captured : int64 * string) (ev : TargetEvent) : int64 * string :=
  match ev with
  | EventResponseReceived ResourceTypeDocument status text => (status, text)
  | _ => captured
  end.

(** [chromedp.Run(ctx, chromedp.Navigate(url))] with the listener in place. *)
Definition run_Navigate (reply : NavReply) (captured : int64 * string) (url : string)
  : M ((int64 * string) * option error) :=
  emit (ERun (Navigate url)) ;;
  ret (fold_left listener (nav_events reply) captured, nav_err reply).

Definition MkdirAll (path : string) (perm : Z) : M (option error) :=
  emit (EMkdirAll path perm) ;; ret (os_MkdirAll w path).

Definition WriteFile (path : string) (data : list Byte.byte) (perm : Z) : M (option error) :=
  emit (EWriteFile path data perm) ;; ret (os_WriteFile w path data).

(** [if err != nil { log.Fatal(msg, err) }] *)
Definition fatal_if (err : option error) (msg : string) : M unit :=
  match err with
  | Some e => log_Fatal (msg ++ e)
  | None => ret tt
  end.

Definition contentRetrieval : M (string * option error) :=
  emit (ERun (OuterHTML "html")) ;;
  match outer_html w with
  | Err e => log_Print ("Error retrieving content: " ++ e) ;; ret ("", Some e)
  | Ok htmlContent => ret (htmlContent, None)
  end.

Definition captureScreenshot : M (list Byte.byte * option error) :=
  emit (ERun (FullScreenshot 90)) ;;
  match full_screenshot w with
  | Err e => log_Print ("Error capturing screenshot: " ++ e) ;; ret ([], Some e)
  | Ok screenShotBuffer => ret (screenShotBuffer, None)
  end.

Definition extractLinks : M (list string * option error) :=
  emit (ERun (Evaluate javascript)) ;;
  match evaluate w with
  | Err e => ret ([], Some ("error extracting links: " ++ e))
  | Ok jsonResult =>
      match json_Unmarshal jsonResult with
      | Err e => ret ([], Some ("error unmarshaling JSON: " ++ e))
      | Ok links => ret (links, None)
      end
  end.

(** The three blocks of [main] that fetch one artifact and save it. *)
Definition save_html (folderPath : string) : M unit :=
  r <- contentRetrieval ;;
  match snd r with
  | Some e => log_Print ("Failed to retrieve content: " ++ " " ++ e ++ LF)
  | None =>
      let savePath := filepath_Join folderPath "page.html" in
      werr <- WriteFile savePath (bytes (fst r)) 420 ;;
      match werr with
      | Some e => log_Print ("Failed to save HTML file: " ++ " " ++ e ++ LF)
      | None => fmt_Print ("HTML content saved to " ++ savePath ++ LF)
      end
  end.

Definition save_screenshot (folderPath : string) : M unit :=
  r <- captureScreenshot ;;
  match snd r with
  | Some e => log_Print ("Image fault: " ++ " " ++ e ++ LF)
  | None =>
      let savepath := filepath_Join folderPath "screenshot.png" in
      werr <- WriteFile savepath (fst r) 420 ;;
      match werr with
      | Some e => log_Print ("Failed to save screenshot: " ++ " " ++ e ++ LF)
      | None => fmt_Print ("Screenshot saved to " ++ savepath ++ LF)
      end
  end.

Definition save_links (folderPath : string) : M unit :=
  r <- extractLinks ;;
  match snd r with
  | Some e => log_Print ("Failed to extract links: " ++ " " ++ e ++ LF)
  | None =>
      let savepath := filepath_Join folderPath "links.txt" in
      let linksContent := strings_Join (fst r) LF in
      werr <- WriteFile savepath (bytes linksContent) 420 ;;
      match werr with
      | Some e => log_Print ("Failed to save links: " ++ " " ++ e ++ LF)
      | None =>
          fmt_Print ("Links saved to " ++ fmt_d (Z.of_nat (List.length (fst r)))
                     ++ " links in " ++ savepath ++ LF)
      end
  end.

(** The deferred cancel functions, run last-registered first when [main]
    returns; [os.Exit] skips them. *)
Definition deferred : M unit :=
  emit (ECancel TimeoutCtx) ;; emit (ECancel BrowserCtx) ;; emit (ECancel AllocCtx).

Definition main : M unit :=
  if (List.length (os_Args w) <? 2)%nat then
    log_Fatal "Please provide a URL as a command-line argument."
  else
    let rawURL := nth 1 (os_Args w) "" in
    fmt_Print ("Navigating to URL: " ++ rawURL ++ LF) ;;
    match url_Parse w rawURL with
    | Err e => log_Fatal ("Invalid URL: " ++ e)
    | Ok hostname =>
        let timestamp := time_Now w in
        let folderPath := filepath_Join "scraped_data" (timestamp ++ "_" ++ hostname) in
        err <- MkdirAll folderPath 493 ;;
        fatal_if err "Failed to create directory: " ;;
        fmt_Print ("The Registry folder is created." ++ folderPath) ;;
        emit (ENewExecAllocator userAgent 1920 1080
                [("ignore-certificate-errors", true); ("disable-http2", true)]) ;;
        emit ENewContext ;;
        emit (EWithTimeout 120) ;;
        fmt_Print ("Targeting URL: " ++ rawURL ++ LF) ;;
        emit EListenTarget ;;
        n1 <- run_Navigate (navigate_1 w) (0%Z, "") rawURL ;;
        listNetworkRequests (fst (fst n1)) (snd (fst n1)) ;;
        fatal_if (snd n1) "Failed to navigate: " ;;
        n2 <- run_Navigate (navigate_2 w) (fst n1) rawURL ;;
        fatal_if (snd n2) "Failed to navigate: " ;;
        save_html folderPath ;;
        save_screenshot folderPath ;;
        save_links folderPath ;;
        deferred
    end.

End Program.

(** ** What a trace shows *)

Definition is_fs_op (e : Event) : bool :=
  match e with
  | EMkdirAll _ _ | EWriteFile _ _ _ => true
  | _ => false
  end.

(** The file-system calls of a run, in order. *)
Definition fs_ops (t : Trace) : Trace := filter is_fs_op t.

(** The paths handed to [os.WriteFile], in order. *)
Definition written_paths (t : Trace) : list string :=
  flat_map (fun e => match e with EWriteFile p _ _ => [p] | _ => [] end) t.

(** The actions handed to [chromedp.Run], in order. *)
Definition browser_actions (t : Trace) : list Action :=
  flat_map (fun e => match e with ERun a => [a] | _ => [] end) t.

Definition is_navigate (a : Action) : bool :=
  match a with Navigate _ => true | _ => false end.

Definition is_extraction (a : Action) : bool :=
  match a with
  | OuterHTML _ | FullScreenshot _ | Evaluate _ => true
  | Navigate _ => false
  end.

Definition logged (t : Trace) : list string :=
  flat_map (fun e => match e with ELog s => [s] | _ => [] end) t.

Definition is_document_response (ev : TargetEvent) : bool :=
  match ev with
  | EventResponseReceived ResourceTypeDocument _ _ => true
  | _ => false
  end.

(** ** The run up to the first navigation *)

Definition rawURL (w : World) : string := nth 1 (os_Args w) "".

Definition folderPath (w : World) (hostname : string) : string :=
  filepath_Join "scraped_data" (time_Now w ++ "_" ++ hostname).

(** The run gets past the argument check, the URL parse and the creation of
    the folder, so that the browser is asked to navigate. *)
Definition reaches_navigation (w : World) (hostname : string) : Prop :=
  (2 <= List.length (os_Args w))%nat /\
  url_Parse w (rawURL w) = Ok hostname /\
  os_MkdirAll w (folderPath w hostname) = None.

Definition navigation_ok (w : World) : Prop :=
  nav_err (navigate_1 w) = None /\ nav_err (navigate_2 w) = None.

(** The status the listener holds when [listNetworkRequests] is called. *)
Definition captured (w : World) : int64 * string :=
  fold_left listener (nav_events (navigate_1 w)) (0%Z, "").

(** The links [extractLinks] hands back when it reports no error. *)
Definition decoded_links (w : World) : Result (list string) :=
  match evaluate w with
  | Err e => Err e
  | Ok jsonResult => json_Unmarshal jsonResult
  end.

(** The strings among a list of JavaScript values. *)
Definition js_strings (vs : list JsValue) : list string :=
  flat_map (fun v => match v with JsString s => [s] | _ => [] end) vs.

(** The content of links.txt as the specification words it: the link
    strings, in order, joined by single newline characters. *)
Fixpoint newline_joined (links : list string) : string :=
  match links with
  | [] => ""
  | [l] => l
  | l :: rest => l ++ LF ++ newline_joined rest
  end.

(** ** Auxiliary views used in the statements *)

(** After an element, a comma and the remaining quoted elements up to the
    closing bracket. *)
Fixpoint tail_elems (l : list string) : string :=
  match l with
  | [] => "]"
  | s :: r => "," ++ QuoteJSONString s ++ tail_elems r
  end.

(** The hrefs the script keeps, as strings. *)
Definition kept_hrefs (anchors : list JsValue) : list string :=
  js_strings (filter script_filter (map script_map anchors)).

Definition returned_links (r : M (list string * option error)) : list string :=
  match snd r with
  | Some (links, _) => links
  | None => []
  end.

Definition returned_error (r : M (list string * option error)) : option error :=
  match snd r with
  | Some (_, err) => err
  | None => None
  end.


(** The browser either fails the evaluation or stores what the script
    computes on the anchors of the page. *)
Definition evaluates_on (w : World) (anchors : list JsValue) : Prop :=
  evaluate w = script_reply anchors \/ exists e, evaluate w = Err e.

(** ** Sample runs *)

Definition sample_anchors : list JsValue :=
  [ JsObject [("href", JsString "https://example.com/a")];
    JsObject [("href", JsString "")];
    JsObject [("href", JsObject [("baseVal", JsString "#icon")])];
    JsObject [("href", JsObject [("baseVal", JsString "")])];
    JsObject [("href", JsNull)];
    JsObject [("id", JsString "top")];
    JsObject [("href", JsString "https://example.com/b")] ].

(** A run in which every step succeeds. *)
Definition sample_world : World :=
  {| os_Args := ["scrapper"; "https://example.com/"];
     url_Parse := fun _ => Ok "example.com";
     time_Now := "2024-05-06_07-08-09";
     os_MkdirAll := fun _ => None;
     os_WriteFile := fun _ _ => None;
     navigate_1 :=
       {| nav_events := [EventOther;
                         EventResponseReceived ResourceTypeDocument 200%Z "OK";
                         EventResponseReceived ResourceTypeImage 404%Z "Not Found"];
          nav_err := None |};
     navigate_2 := {| nav_events := []; nav_err := None |};
     outer_html := Ok "<html></html>";
     full_screenshot := Ok [Byte.x89; Byte.x50; Byte.x4e; Byte.x47];
     evaluate := script_reply sample_anchors |}.

(** What a run has done when it reaches the first navigation. *)
Definition setup_trace (w : World) (hostname : string) : Trace :=
  [ EStdout ("Navigating to URL: " ++ rawURL w ++ LF);
    EMkdirAll (folderPath w hostname) 493;
    EStdout ("The Registry folder is created." ++ folderPath w hostname);
    ENewExecAllocator userAgent 1920 1080
      [("ignore-certificate-errors", true); ("disable-http2", true)];
    ENewContext;
    EWithTimeout 120;
    EStdout ("Targeting URL: " ++ rawURL w ++ LF);
    EListenTarget ].

(** The output of [log.Fatal("Failed to navigate: ", err)]. *)
Definition navigate_fatal (e : error) : Trace :=
  [ELog ("Failed to navigate: " ++ e); EExit 1].


(** A write to the file at [path]. *)
Definition writes_to (path : string) (e : Event) : bool :=
  match e with
  | EWriteFile p _ _ => String.eqb p path
  | _ => false
  end.

Definition lf : ascii := ascii_of_nat 10.

Fixpoint no_lf (s : string) : bool :=
  match s with
  | EmptyString => true
  | String c r => negb (Ascii.eqb c lf) && no_lf r
  end.

(** The lines of a text: its pieces between line feeds, in order. *)
Fixpoint lines (s : string) : list string :=
  match s with
  | EmptyString => [""]
  | String c r =>
      if Ascii.eqb c lf then "" :: lines r
      else match lines r with
           | [] => [String c ""]
           | l :: ls => String c l :: ls
           end
  end.

(** Runs in which one step fails. *)
Definition set_navigate_2 (w : World) (r : NavReply) : World :=
  {| os_Args := os_Args w;
     url_Parse := url_Parse w;
     time_Now := time_Now w;
     os_MkdirAll := os_MkdirAll w;
     os_WriteFile := os_WriteFile w;
     navigate_1 := navigate_1 w;
     navigate_2 := r;
     outer_html := outer_html w;
     full_screenshot := full_screenshot w;
     evaluate := evaluate w |}.

Definition set_full_screenshot (w : World) (r : Result (list Byte.byte)) : World :=
  {| os_Args := os_Args w;
     url_Parse := url_Parse w;
     time_Now := time_Now w;
     os_MkdirAll := os_MkdirAll w;
     os_WriteFile := os_WriteFile w;
     navigate_1 := navigate_1 w;
     navigate_2 := navigate_2 w;
     outer_html := outer_html w;
     full_screenshot := r;
     evaluate := evaluate w |}.


Definition sample_folder : string := "scraped_data/2024-05-06_07-08-09_example.com".

Definition set_navigate_1 (w : World) (r : NavReply) : World :=
  {| os_Args := os_Args w;
     url_Parse := url_Parse w;
     time_Now := time_Now w;
     os_MkdirAll := os_MkdirAll w;
     os_WriteFile := os_WriteFile w;
     navigate_1 := r;
     navigate_2 := navigate_2 w;
     outer_html := outer_html w;
     full_screenshot := full_screenshot w;
     evaluate := evaluate w |}.

(** A navigation during which no response of the main document arrives. *)
Definition refused : NavReply :=
  {| nav_events := [EventOther; EventResponseReceived ResourceTypeScript 200%Z "OK"];
     nav_err := Some "net::ERR_CONNECTION_REFUSED" |}.

(** ** Further views of a run *)

Definition set_os_WriteFile (w : World)
    (f : string -> list Byte.byte -> option error) : World :=
  {| os_Args := os_Args w;
     url_Parse := url_Parse w;
     time_Now := time_Now w;
     os_MkdirAll := os_MkdirAll w;
     os_WriteFile := f;
     navigate_1 := navigate_1 w;
     navigate_2 := navigate_2 w;
     outer_html := outer_html w;
     full_screenshot := full_screenshot w;
     evaluate := evaluate w |}.

Definition set_os_MkdirAll (w : World) (f : string -> option error) : World :=
  {| os_Args := os_Args w;
     url_Parse := url_Parse w;
     time_Now := time_Now w;
     os_MkdirAll := f;
     os_WriteFile := os_WriteFile w;
     navigate_1 := navigate_1 w;
     navigate_2 := navigate_2 w;
     outer_html := outer_html w;
     full_screenshot := full_screenshot w;
     evaluate := evaluate w |}.

Definition set_outer_html (w : World) (r : Result string) : World :=
  {| os_Args := os_Args w;
     url_Parse := url_Parse w;
     time_Now := time_Now w;
     os_MkdirAll := os_MkdirAll w;
     os_WriteFile := os_WriteFile w;
     navigate_1 := navigate_1 w;
     navigate_2 := navigate_2 w;
     outer_html := r;
     full_screenshot := full_screenshot w;
     evaluate := evaluate w |}.

Definition set_evaluate (w : World) (r : Result string) : World :=
  {| os_Args := os_Args w;
     url_Parse := url_Parse w;
     time_Now := time_Now w;
     os_MkdirAll := os_MkdirAll w;
     os_WriteFile := os_WriteFile w;
     navigate_1 := navigate_1 w;
     navigate_2 := navigate_2 w;
     outer_html := outer_html w;
     full_screenshot := full_screenshot w;
     evaluate := r |}.

Definition is_cancel (e : Event) : bool :=
  match e with ECancel _ => true | _ => false end.

Definition is_exit (e : Event) : bool :=
  match e with EExit _ => true | _ => false end.

(** The actions of a run that goes through, in the order of [main]. *)
Definition all_actions (w : World) : list Action :=
  [ Navigate (rawURL w); Navigate (rawURL w);
    OuterHTML "html"; FullScreenshot 90; Evaluate javascript ].

(** A redirect answered before the page itself, with an image in between. *)
Definition redirected : NavReply :=
  {| nav_events := [EventResponseReceived ResourceTypeDocument 301%Z "Moved Permanently";
                    EventResponseReceived ResourceTypeDocument 403%Z "Forbidden";
                    EventResponseReceived ResourceTypeImage 200%Z "OK";
                    EventOther];
     nav_err := Some "net::ERR_BLOCKED_BY_CLIENT" |}.

(** Anchors none of which has a usable href. *)
Definition bare_anchors : list JsValue :=
  [ JsObject [("href", JsString "")];
    JsObject [("name", JsString "top")];
    JsObject [("href", JsObject [("animVal", JsString "#a")])] ].
(** * Properties *)

(** ** Status classification *)

Lemma listNetworkRequests_returns (code : int64) (text : string) :
  snd (listNetworkRequests code text) = Some tt.
Proof.
  unfold listNetworkRequests.
  repeat match goal with
         | |- context [if ?b then _ else _] => destruct b
         end; reflexivity.
Qed.

(** C1: the category printed for a captured status code follows the table:
    2xx SUCCESSFUL, 3xx REDIRECTION, 403 FORBIDDEN, 404 NOT FOUND, any other
    4xx CLIENT ERROR, 500 and above SERVER ERROR; each after the line that
    repeats the code and its text. *)
Theorem listNetworkRequests_categories (code : int64) (text : string) :
  let header := EStdout ("Request network: " ++ fmt_d code ++ " (" ++ text ++ ")" ++ LF) in
  ((200 <= code < 300)%Z ->
   listNetworkRequests code text
   = ([header; EStdout ("Request SUCCESSFUL: Site is accessible." ++ LF)], Some tt)) /\
  ((300 <= code < 400)%Z ->
   listNetworkRequests code text
   = ([header; EStdout ("Request REDIRECTION (" ++ fmt_d code
                        ++ "): Site is redirecting to another address." ++ LF)], Some tt)) /\
  (code = 403%Z ->
   listNetworkRequests code text
   = ([header; ELog ("Request FORBIDDEN (403): Access denied (WAF or Bot Protection)." ++ LF)],
      Some tt)) /\
  (code = 404%Z ->
   listNetworkRequests code text
   = ([header; ELog ("Request NOT FOUND (404): Page does not exist." ++ LF)], Some tt)) /\
  ((400 <= code < 500)%Z -> code <> 403%Z -> code <> 404%Z ->
   listNetworkRequests code text
   = ([header; ELog ("Request CLIENT ERROR (" ++ fmt_d code ++ "): " ++ text ++ LF)],
      Some tt)) /\
  ((500 <= code)%Z ->
   listNetworkRequests code text
   = ([header; ELog ("Request SERVER ERROR (" ++ fmt_d code
                     ++ "): Target site is down or faulty." ++ LF)], Some tt)).
Proof.
  intro header. unfold listNetworkRequests.
  repeat split; intros;
    repeat match goal with
           | |- context [(?a =? ?b)%Z] => destruct (Z.eqb_spec a b); try lia
           | |- context [(?a <=? ?b)%Z] => destruct (Z.leb_spec a b); try lia
           | |- context [(?a <? ?b)%Z] => destruct (Z.ltb_spec a b); try lia
           end; subst; reflexivity.
Qed.

Lemma listNetworkRequests_categories_witness :
  listNetworkRequests 204%Z "No Content"
  = ([EStdout ("Request network: 204 (No Content)" ++ LF);
      EStdout ("Request SUCCESSFUL: Site is accessible." ++ LF)], Some tt) /\
  listNetworkRequests 301%Z "Moved"
  = ([EStdout ("Request network: 301 (Moved)" ++ LF);
      EStdout ("Request REDIRECTION (301): Site is redirecting to another address." ++ LF)],
     Some tt) /\
  listNetworkRequests 403%Z "Forbidden"
  = ([EStdout ("Request network: 403 (Forbidden)" ++ LF);
      ELog ("Request FORBIDDEN (403): Access denied (WAF or Bot Protection)." ++ LF)],
     Some tt) /\
  listNetworkRequests 404%Z "Not Found"
  = ([EStdout ("Request network: 404 (Not Found)" ++ LF);
      ELog ("Request NOT FOUND (404): Page does not exist." ++ LF)], Some tt) /\
  listNetworkRequests 418%Z "Teapot"
  = ([EStdout ("Request network: 418 (Teapot)" ++ LF);
      ELog ("Request CLIENT ERROR (418): Teapot" ++ LF)], Some tt) /\
  listNetworkRequests 503%Z "Unavailable"
  = ([EStdout ("Request network: 503 (Unavailable)" ++ LF);
      ELog ("Request SERVER ERROR (503): Target site is down or faulty." ++ LF)], Some tt).
Proof.
  split; [ apply (proj1 (listNetworkRequests_categories 204%Z "No Content")); lia | ].
  split; [ apply (proj1 (proj2 (listNetworkRequests_categories 301%Z "Moved"))); lia | ].
  split; [ apply (proj1 (proj2 (proj2 (listNetworkRequests_categories 403%Z "Forbidden"))));
           reflexivity | ].
  split; [ apply (proj1 (proj2 (proj2 (proj2
                    (listNetworkRequests_categories 404%Z "Not Found"))))); reflexivity | ].
  split; [ apply (proj1 (proj2 (proj2 (proj2 (proj2
                    (listNetworkRequests_categories 418%Z "Teapot")))))); lia | ].
  apply (proj2 (proj2 (proj2 (proj2 (proj2
           (listNetworkRequests_categories 503%Z "Unavailable")))))); lia.
Defined.

Lemma listener_no_document (evs : list TargetEvent) (c : int64 * string) :
  forallb (fun ev => negb (is_document_response ev)) evs = true ->
  fold_left listener evs c = c.
Proof.
  revert c. induction evs as [|ev evs IH]; intros c H; simpl in *.
  - reflexivity.
  - apply andb_true_iff in H. destruct H as [Hev Hrest].
    replace (listener c ev) with c; [ now apply IH | ].
    destruct ev as [[] ? ?|]; simpl in *; try reflexivity; discriminate.
Qed.

(** C9: with no main-document response among the events of the first
    navigation the captured code is still zero, and for the code zero
    [listNetworkRequests] prints nothing and returns. *)
Theorem listNetworkRequests_nothing_captured (w : World) (text : string) :
  (forallb (fun ev => negb (is_document_response ev)) (nav_events (navigate_1 w)) = true ->
   captured w = (0%Z, "")) /\
  listNetworkRequests 0%Z text = ([], Some tt).
Proof.
  split.
  - intro H. unfold captured. now apply listener_no_document.
  - reflexivity.
Qed.

Lemma listNetworkRequests_nothing_captured_witness :
  captured (set_navigate_1 sample_world refused) = (0%Z, "") /\
  main (set_navigate_1 sample_world refused)
  = ((setup_trace sample_world "example.com"
      ++ [ERun (Navigate "https://example.com/")]
      ++ navigate_fatal "net::ERR_CONNECTION_REFUSED")%list, None).
Proof.
  split; [ | reflexivity].
  apply (proj1 (listNetworkRequests_nothing_captured
                  (set_navigate_1 sample_world refused) "")).
  reflexivity.
Defined.

(** ** Strings *)

Lemma append_assoc (a b c : string) : (a ++ b) ++ c = a ++ (b ++ c).
Proof. induction a as [|x a IH]; simpl; [reflexivity | now rewrite IH]. Qed.

Lemma append_nil_r (a : string) : a ++ "" = a.
Proof. induction a as [|x a IH]; simpl; [reflexivity | now rewrite IH]. Qed.

Lemma append_inv_head (a b c : string) : a ++ b = a ++ c -> b = c.
Proof.
  induction a as [|x a IH]; simpl; intro H; [exact H | ].
  injection H as H. now apply IH.
Qed.

Lemma fold_join_prefix (sep : string) (xs : list string) (p q : string) :
  fold_left (fun b s => b ++ sep ++ s) xs (p ++ q)
  = p ++ fold_left (fun b s => b ++ sep ++ s) xs q.
Proof.
  revert p q. induction xs as [|x xs IH]; intros p q; cbn [fold_left].
  - reflexivity.
  - rewrite append_assoc. apply IH.
Qed.

Lemma strings_Join_fold (r : string) (rest : list string) (sep : string) :
  strings_Join (r :: rest) sep = fold_left (fun b s => b ++ sep ++ s) rest r.
Proof. destruct rest; reflexivity. Qed.

Lemma strings_Join_cons (l r : string) (rest : list string) (sep : string) :
  strings_Join (l :: r :: rest) sep = l ++ sep ++ strings_Join (r :: rest) sep.
Proof.
  rewrite !strings_Join_fold. cbn [fold_left].
  now rewrite !fold_join_prefix.
Qed.

(** [strings.Join] with a line feed is the joining the specification
    describes. *)
Lemma strings_Join_newline_joined (links : list string) :
  strings_Join links LF = newline_joined links.
Proof.
  induction links as [|l [|r rest] IH]; try reflexivity.
  rewrite strings_Join_cons, IH. reflexivity.
Qed.

(** ** Decoding what [JSON.stringify] wrote *)

Lemma run_app (st : DecState) (a b : string) : run st (a ++ b) = run (run st a) b.
Proof.
  revert st. induction a as [|c a IH]; intro st; simpl; [reflexivity | apply IH].
Qed.

Lemma run_quote_char (acc : list string) (cur : string) (c : ascii) :
  run (DStr acc cur None) (quote_char c) = DStr acc (cur ++ String c "") None.
Proof.
  destruct c as [[] [] [] [] [] [] [] []]; reflexivity.
Qed.

Lemma run_quote_body (acc : list string) (cur s : string) :
  run (DStr acc cur None) (quote_body s) = DStr acc (cur ++ s) None.
Proof.
  revert cur. induction s as [|c s IH]; intro cur; simpl.
  - now rewrite append_nil_r.
  - rewrite run_app, run_quote_char, IH, append_assoc. reflexivity.
Qed.

Lemma run_body_close (acc : list string) (s rest : string) :
  run (DStr acc "" None) (quote_body s ++ String dquote rest)
  = run (DAfter (acc ++ [s])) rest.
Proof. rewrite run_app, run_quote_body. reflexivity. Qed.

Lemma run_tail_elems (acc l : list string) :
  run (DAfter acc) (tail_elems l) = DEnd (acc ++ l).
Proof.
  revert acc. induction l as [|s l IH]; intro acc; simpl.
  - now rewrite app_nil_r.
  - unfold QuoteJSONString. cbn [append run step].
    change (run (DStr acc "" None)
              ((quote_body s ++ String dquote "") ++ tail_elems l)
            = DEnd (acc ++ s :: l)).
    rewrite append_assoc. cbn [append].
    rewrite run_body_close, IH, <- app_assoc. reflexivity.
Qed.

Lemma concat_tail_elems (s : string) (l : list string) :
  String.concat "," (map QuoteJSONString (s :: l)) ++ "]"
  = QuoteJSONString s ++ tail_elems l.
Proof.
  revert s. induction l as [|x l IH]; intro s.
  - reflexivity.
  - change (String.concat "," (map QuoteJSONString (s :: x :: l)))
      with (QuoteJSONString s ++ "," ++ String.concat "," (map QuoteJSONString (x :: l))).
    rewrite !append_assoc, IH. reflexivity.
Qed.

(** The array of strings [JSON.stringify] writes decodes to the same
    strings. *)
Lemma json_Unmarshal_stringified (l : list string) :
  json_Unmarshal ("[" ++ String.concat "," (map QuoteJSONString l) ++ "]") = Ok l.
Proof.
  unfold json_Unmarshal. destruct l as [|s l].
  - reflexivity.
  - rewrite concat_tail_elems. unfold QuoteJSONString.
    cbn [append run step].
    change (match run (DStr [] "" None)
                    ((quote_body s ++ String dquote "") ++ tail_elems l) with
            | DEnd acc => Ok acc
            | _ => Err "invalid JSON for []string"
            end = Ok (s :: l)).
    rewrite append_assoc. cbn [append].
    rewrite run_body_close, run_tail_elems. reflexivity.
Qed.

(** Checks of the decoder on inputs the round trip does not reach. *)
Example json_Unmarshal_spaces_and_escapes :
  json_Unmarshal (" [ " ++ DQ ++ "a\u00e9\n\/" ++ DQ ++ " ,"
                  ++ DQ ++ "\ud83d\ude00" ++ DQ ++ "] " ++ LF)
  = Ok ["aé" ++ LF ++ "/"; "😀"].
Proof. reflexivity. Qed.

Example json_Unmarshal_rejects :
  is_ok (json_Unmarshal "") = false /\
  is_ok (json_Unmarshal "[1]") = false /\
  is_ok (json_Unmarshal "{}") = false /\
  is_ok (json_Unmarshal ("[" ++ DQ ++ "a" ++ DQ ++ ",]")) = false /\
  is_ok (json_Unmarshal (DQ ++ "a" ++ DQ)) = false /\
  is_ok (json_Unmarshal ("[" ++ DQ ++ "a" ++ DQ ++ "] x")) = false.
Proof. repeat split. Qed.

(** The decoder itself lets empty strings through: a [null] element leaves
    the empty string in the slice.  That the returned links are not empty
    rests on the filter of the script. *)
Example json_Unmarshal_null_element :
  json_Unmarshal "null" = Ok [] /\
  json_Unmarshal ("[null," ++ DQ ++ DQ ++ "]") = Ok [""; ""].
Proof. split; reflexivity. Qed.

(** ** The link script *)

Lemma script_filter_string (v : JsValue) :
  script_filter v = true -> exists s, v = JsString s /\ s <> "".
Proof.
  destruct v; try discriminate. unfold script_filter. simpl.
  intro H. exists s. split; [reflexivity | ].
  destruct (String.eqb_spec s ""); [discriminate | assumption].
Qed.

Lemma kept_hrefs_nonempty (anchors : list JsValue) :
  Forall (fun s => s <> "") (kept_hrefs anchors).
Proof.
  unfold kept_hrefs. induction (map script_map anchors) as [|v vs IH]; simpl.
  - constructor.
  - destruct (script_filter v) eqn:E; [ | exact IH].
    destruct (script_filter_string v E) as [s [-> Hs]]. simpl.
    constructor; assumption.
Qed.

Lemma serialize_kept (vs : list JsValue) :
  map (fun e => match SerializeJSONProperty e with
                | Some t => t
                | None => "null"
                end) (filter script_filter vs)
  = map QuoteJSONString (js_strings (filter script_filter vs)).
Proof.
  induction vs as [|v vs IH]; simpl; [reflexivity | ].
  destruct (script_filter v) eqn:E; [ | exact IH].
  destruct (script_filter_string v E) as [s [-> _]]. simpl. now rewrite IH.
Qed.

Lemma script_reply_kept (anchors : list JsValue) :
  script_reply anchors
  = Ok ("[" ++ String.concat "," (map QuoteJSONString (kept_hrefs anchors)) ++ "]").
Proof.
  unfold script_reply, script_value, JSON_stringify, kept_hrefs.
  cbn [SerializeJSONProperty]. now rewrite serialize_kept.
Qed.

(** ** [extractLinks] *)

(** C4: [extractLinks] runs one action, the evaluation of the script; it
    reports an error exactly when that evaluation fails or its string does
    not decode into a list of strings, and then returns a nil list; otherwise
    it returns the decoded list, which for a page whose script ran is the list
    of hrefs the script collected. *)
Theorem extractLinks_decoded (w : World) :
  browser_actions (trace (extractLinks w)) = [Evaluate javascript] /\
  exited (extractLinks w) = false /\
  (returned_error (extractLinks w) <> None <->
   (exists e, evaluate w = Err e) \/
   (exists jsonResult e, evaluate w = Ok jsonResult /\ json_Unmarshal jsonResult = Err e)) /\
  (returned_error (extractLinks w) <> None -> returned_links (extractLinks w) = []) /\
  (forall jsonResult links,
      evaluate w = Ok jsonResult -> json_Unmarshal jsonResult = Ok links ->
      returned_links (extractLinks w) = links /\ returned_error (extractLinks w) = None) /\
  (forall anchors,
      evaluate w = script_reply anchors ->
      returned_links (extractLinks w) = kept_hrefs anchors /\
      returned_error (extractLinks w) = None).
Proof.
  assert (K : forall anchors,
             evaluate w = script_reply anchors ->
             returned_links (extractLinks w) = kept_hrefs anchors /\
             returned_error (extractLinks w) = None).
  { intros anchors H. unfold returned_links, returned_error, extractLinks.
    rewrite H, script_reply_kept, json_Unmarshal_stringified. split; reflexivity. }
  refine (conj _ (conj _ (conj _ (conj _ (conj _ K))))); clear K;
    unfold returned_error, returned_links, exited, trace, extractLinks;
    destruct (evaluate w) as [j|e] eqn:E;
    [destruct (json_Unmarshal j) as [l|e] eqn:D | | 
     destruct (json_Unmarshal j) as [l|e] eqn:D | |
     destruct (json_Unmarshal j) as [l|e] eqn:D | |
     destruct (json_Unmarshal j) as [l|e] eqn:D | |
     destruct (json_Unmarshal j) as [l|e] eqn:D | ];
    cbn [bind emit ret fst snd]; try reflexivity.
  - (* error iff a failure: the string decodes *)
    split; [intro H; now contradiction H | ].
    intros [[e H] | [j' [e [H D']]]]; [discriminate | ].
    assert (j' = j) by congruence. subst j'. congruence.
  - (* it does not decode *)
    split; [ | discriminate].
    intros _. right. exists j, e. split; [reflexivity | assumption].
  - (* the evaluation fails *)
    split; [ | discriminate]. intros _. left. exists e. reflexivity.
  - intro H. now contradiction H.
  - intros j' links H D'. assert (j' = j) by congruence. subst j'.
    split; [congruence | reflexivity].
  - intros j' links H D'. assert (j' = j) by congruence. subst j'. congruence.
  - intros j' links H. discriminate.
Qed.

Lemma extractLinks_decoded_witness :
  let w := {| os_Args := ["scrapper"; "https://example.com/"];
              url_Parse := fun _ => Ok "example.com";
              time_Now := "2024-05-06_07-08-09";
              os_MkdirAll := fun _ => None;
              os_WriteFile := fun _ _ => None;
              navigate_1 := {| nav_events := []; nav_err := None |};
              navigate_2 := {| nav_events := []; nav_err := None |};
              outer_html := Ok "<html></html>";
              full_screenshot := Ok [];
              evaluate := Ok ("[ null, " ++ DQ ++ "A\n" ++ DQ ++ " ]") |} in
  returned_links (extractLinks w) = [""; "A" ++ LF] /\
  returned_error (extractLinks w) = None.
Proof.
  intro w.
  apply (proj1 (proj2 (proj2 (proj2 (proj2 (extractLinks_decoded w)))))
           ("[ null, " ++ DQ ++ "A\n" ++ DQ ++ " ]")).
  - reflexivity.
  - reflexivity.
Defined.

Lemma In_js_strings (s : string) (vs : list JsValue) :
  In s (js_strings vs) <-> In (JsString s) vs.
Proof.
  unfold js_strings. rewrite in_flat_map. split.
  - intros [v [Hv Hs]]. destruct v; simpl in Hs; try contradiction.
    destruct Hs as [-> | []]. exact Hv.
  - intro H. exists (JsString s). split; [exact H | now left].
Qed.

(** C10: the strings [extractLinks] returns are never empty: the list is
    what the script keeps, namely the hrefs (the [baseVal] where the href is
    an object) that are strings and differ from the empty string. *)
Theorem extractLinks_nonempty (w : World) (anchors : list JsValue) :
  evaluates_on w anchors ->
  Forall (fun s => s <> "") (returned_links (extractLinks w)) /\
  (returned_error (extractLinks w) = None ->
   returned_links (extractLinks w) = kept_hrefs anchors) /\
  (forall s, In s (kept_hrefs anchors) <->
             s <> "" /\ exists a, In a anchors /\ script_map a = JsString s).
Proof.
  intro H. split; [ | split].
  - destruct H as [H | [e H]]; unfold returned_links, extractLinks; rewrite H.
    + rewrite script_reply_kept, json_Unmarshal_stringified. simpl.
      apply kept_hrefs_nonempty.
    + simpl. constructor.
  - destruct H as [H | [e H]]; unfold returned_links, returned_error, extractLinks;
      rewrite H.
    + rewrite script_reply_kept, json_Unmarshal_stringified. reflexivity.
    + simpl. discriminate.
  - intro s. unfold kept_hrefs.
    rewrite In_js_strings, filter_In, in_map_iff. split.
    + intros [[a [Ha Hin]] Hf]. split.
      * destruct (script_filter_string _ Hf) as [s' [E Hs']]. congruence.
      * exists a. split; assumption.
    + intros [Hs [a [Hin Ha]]]. split.
      * exists a. split; assumption.
      * unfold script_filter. simpl.
        destruct (String.eqb_spec s ""); [contradiction | reflexivity].
Qed.

Lemma extractLinks_nonempty_witness :
  Forall (fun s => s <> "") (returned_links (extractLinks sample_world)) /\
  (returned_error (extractLinks sample_world) = None ->
   returned_links (extractLinks sample_world) = kept_hrefs sample_anchors) /\
  (forall s, In s (kept_hrefs sample_anchors) <->
             s <> "" /\ exists a, In a sample_anchors /\ script_map a = JsString s).
Proof.
  apply (extractLinks_nonempty sample_world sample_anchors).
  left. reflexivity.
Defined.

(** ** The blocks of [main] *)

Lemma save_html_run (w : World) (dir : string) :
  save_html w dir =
  (match outer_html w with
   | Err e => [ERun (OuterHTML "html");
               ELog ("Error retrieving content: " ++ e);
               ELog ("Failed to retrieve content: " ++ " " ++ e ++ LF)]
   | Ok html =>
       [ERun (OuterHTML "html");
        EWriteFile (filepath_Join dir "page.html") (bytes html) 420;
        match os_WriteFile w (filepath_Join dir "page.html") (bytes html) with
        | Some e => ELog ("Failed to save HTML file: " ++ " " ++ e ++ LF)
        | None => EStdout ("HTML content saved to " ++ filepath_Join dir "page.html" ++ LF)
        end]
   end, Some tt).
Proof.
  unfold save_html, contentRetrieval, WriteFile.
  destruct (outer_html w) as [html|e]; [ | reflexivity].
  cbn. destruct (os_WriteFile w _ _); reflexivity.
Qed.

Lemma save_screenshot_run (w : World) (dir : string) :
  save_screenshot w dir =
  (match full_screenshot w with
   | Err e => [ERun (FullScreenshot 90);
               ELog ("Error capturing screenshot: " ++ e);
               ELog ("Image fault: " ++ " " ++ e ++ LF)]
   | Ok img =>
       [ERun (FullScreenshot 90);
        EWriteFile (filepath_Join dir "screenshot.png") img 420;
        match os_WriteFile w (filepath_Join dir "screenshot.png") img with
        | Some e => ELog ("Failed to save screenshot: " ++ " " ++ e ++ LF)
        | None => EStdout ("Screenshot saved to " ++ filepath_Join dir "screenshot.png" ++ LF)
        end]
   end, Some tt).
Proof.
  unfold save_screenshot, captureScreenshot, WriteFile.
  destruct (full_screenshot w) as [img|e]; [ | reflexivity].
  cbn. destruct (os_WriteFile w _ _); reflexivity.
Qed.

Lemma save_links_run (w : World) (dir : string) :
  save_links w dir =
  (match returned_error (extractLinks w) with
   | Some e => [ERun (Evaluate javascript);
                ELog ("Failed to extract links: " ++ " " ++ e ++ LF)]
   | None =>
       let links := returned_links (extractLinks w) in
       let data := bytes (strings_Join links LF) in
       [ERun (Evaluate javascript);
        EWriteFile (filepath_Join dir "links.txt") data 420;
        match os_WriteFile w (filepath_Join dir "links.txt") data with
        | Some e => ELog ("Failed to save links: " ++ " " ++ e ++ LF)
        | None => EStdout ("Links saved to " ++ fmt_d (Z.of_nat (List.length links))
                           ++ " links in " ++ filepath_Join dir "links.txt" ++ LF)
        end]
   end, Some tt).
Proof.
  unfold save_links, returned_error, returned_links, extractLinks, WriteFile.
  destruct (evaluate w) as [j|e]; [ | reflexivity].
  destruct (json_Unmarshal j) as [links|e]; [ | reflexivity].
  cbn. destruct (os_WriteFile w _ _); reflexivity.
Qed.

(** The whole run, once the folder exists. *)
Lemma main_run (w : World) (hostname : string) :
  reaches_navigation w hostname ->
  main w =
  ((setup_trace w hostname ++ [ERun (Navigate (rawURL w))]
    ++ trace (listNetworkRequests (fst (captured w)) (snd (captured w)))
    ++ match nav_err (navigate_1 w) with
       | Some e => navigate_fatal e
       | None =>
           [ERun (Navigate (rawURL w))]
           ++ match nav_err (navigate_2 w) with
              | Some e => navigate_fatal e
              | None =>
                  trace (save_html w (folderPath w hostname))
                  ++ trace (save_screenshot w (folderPath w hostname))
                  ++ trace (save_links w (folderPath w hostname))
                  ++ trace deferred
              end
       end)%list,
   match nav_err (navigate_1 w), nav_err (navigate_2 w) with
   | None, None => Some tt
   | _, _ => None
   end).
Proof.
  intros [Hargs [Hparse Hmk]].
  unfold main. apply Nat.ltb_ge in Hargs. rewrite Hargs.
  fold (rawURL w). rewrite Hparse. cbv zeta.
  change (filepath_Join "scraped_data" (time_Now w ++ "_" ++ hostname))
    with (folderPath w hostname).
  unfold MkdirAll, run_Navigate, fmt_Print, emit.
  cbn [bind fst snd ret]. rewrite Hmk. cbn [fatal_if bind fst snd ret app].
  fold (captured w).
  unfold bind, trace. rewrite listNetworkRequests_returns.
  destruct (nav_err (navigate_1 w)) as [e1|];
    [reflexivity | destruct (nav_err (navigate_2 w)) as [e2|]; [reflexivity | ]].
  cbn [fatal_if ret fst snd app].
  rewrite save_html_run, save_screenshot_run, save_links_run. reflexivity.
Qed.

(** ** Reading traces *)

Lemma fs_ops_app (s t : Trace) : fs_ops (s ++ t)%list = (fs_ops s ++ fs_ops t)%list.
Proof. apply filter_app. Qed.

Lemma written_paths_app (s t : Trace) :
  written_paths (s ++ t)%list = (written_paths s ++ written_paths t)%list.
Proof. apply flat_map_app. Qed.

Lemma browser_actions_app (s t : Trace) :
  browser_actions (s ++ t)%list = (browser_actions s ++ browser_actions t)%list.
Proof. apply flat_map_app. Qed.

Lemma logged_app (s t : Trace) : logged (s ++ t)%list = (logged s ++ logged t)%list.
Proof. apply flat_map_app. Qed.

Ltac by_switch :=
  unfold listNetworkRequests;
  repeat match goal with
         | |- context [if ?b then _ else _] => destruct b
         end; reflexivity.

Lemma classification_no_fs_ops (code : int64) (text : string) :
  fs_ops (trace (listNetworkRequests code text)) = [].
Proof. by_switch. Qed.

Lemma classification_no_writes (code : int64) (text : string) :
  written_paths (trace (listNetworkRequests code text)) = [].
Proof. by_switch. Qed.

Lemma classification_no_actions (code : int64) (text : string) :
  browser_actions (trace (listNetworkRequests code text)) = [].
Proof. by_switch. Qed.

Lemma returned_error_decoded (w : World) :
  returned_error (extractLinks w) = None <-> is_ok (decoded_links w) = true.
Proof.
  unfold returned_error, extractLinks, decoded_links.
  destruct (evaluate w) as [j|e]; [destruct (json_Unmarshal j) | ]; cbn;
    split; intro H; solve [reflexivity | discriminate H].
Qed.

Lemma returned_links_decoded (w : World) (links : list string) :
  decoded_links w = Ok links ->
  returned_links (extractLinks w) = links /\ returned_error (extractLinks w) = None.
Proof.
  unfold returned_error, returned_links, extractLinks, decoded_links.
  destruct (evaluate w) as [j|e]; [destruct (json_Unmarshal j) | ]; cbn;
    intro H; inversion H; split; reflexivity.
Qed.

Lemma deferred_no_fs_ops : fs_ops (trace deferred) = [].
Proof. reflexivity. Qed.

Lemma deferred_no_writes : written_paths (trace deferred) = [].
Proof. reflexivity. Qed.

Lemma deferred_no_actions : browser_actions (trace deferred) = [].
Proof. reflexivity. Qed.

Create Rewrite HintDb traces.
#[local] Hint Rewrite fs_ops_app written_paths_app browser_actions_app logged_app
  classification_no_fs_ops classification_no_writes classification_no_actions
  deferred_no_fs_ops deferred_no_writes deferred_no_actions
  filter_app @app_nil_r : traces.

Ltac case_writes :=
  repeat match goal with
         | |- context [os_WriteFile ?w ?p ?d] => destruct (os_WriteFile w p d)
         end.

Lemma save_html_actions (w : World) (dir : string) :
  browser_actions (trace (save_html w dir)) = [OuterHTML "html"].
Proof. rewrite save_html_run. destruct (outer_html w); case_writes; reflexivity. Qed.

Lemma save_screenshot_actions (w : World) (dir : string) :
  browser_actions (trace (save_screenshot w dir)) = [FullScreenshot 90].
Proof.
  rewrite save_screenshot_run. destruct (full_screenshot w); case_writes; reflexivity.
Qed.

Lemma save_links_actions (w : World) (dir : string) :
  browser_actions (trace (save_links w dir)) = [Evaluate javascript].
Proof.
  rewrite save_links_run.
  destruct (returned_error (extractLinks w)); cbv zeta; case_writes; reflexivity.
Qed.

Lemma save_html_writes (w : World) (dir : string) :
  written_paths (trace (save_html w dir))
  = if is_ok (outer_html w) then [filepath_Join dir "page.html"] else [].
Proof. rewrite save_html_run. destruct (outer_html w); case_writes; reflexivity. Qed.

Lemma save_screenshot_writes (w : World) (dir : string) :
  written_paths (trace (save_screenshot w dir))
  = if is_ok (full_screenshot w) then [filepath_Join dir "screenshot.png"] else [].
Proof.
  rewrite save_screenshot_run. destruct (full_screenshot w); case_writes; reflexivity.
Qed.

Lemma save_links_writes (w : World) (dir : string) :
  written_paths (trace (save_links w dir))
  = if is_ok (decoded_links w) then [filepath_Join dir "links.txt"] else [].
Proof.
  rewrite save_links_run.
  pose proof (returned_error_decoded w) as [H1 H2].
  destruct (returned_error (extractLinks w)) as [e|].
  - destruct (is_ok (decoded_links w)); [discriminate (H2 eq_refl) | reflexivity].
  - rewrite (H1 eq_refl). cbv zeta. case_writes; reflexivity.
Qed.

(** ** The run as a whole *)

Lemma setup_actions (w : World) (hostname : string) :
  browser_actions (setup_trace w hostname) = [].
Proof. reflexivity. Qed.

Lemma setup_writes (w : World) (hostname : string) :
  written_paths (setup_trace w hostname) = [].
Proof. reflexivity. Qed.

Lemma setup_fs_ops (w : World) (hostname : string) :
  fs_ops (setup_trace w hostname) = [EMkdirAll (folderPath w hostname) 493].
Proof. reflexivity. Qed.

(** The run when both navigations succeed. *)
Lemma main_run_ok (w : World) (hostname : string) :
  reaches_navigation w hostname -> navigation_ok w ->
  main w =
  ((setup_trace w hostname ++ [ERun (Navigate (rawURL w))]
    ++ trace (listNetworkRequests (fst (captured w)) (snd (captured w)))
    ++ [ERun (Navigate (rawURL w))]
    ++ trace (save_html w (folderPath w hostname))
    ++ trace (save_screenshot w (folderPath w hostname))
    ++ trace (save_links w (folderPath w hostname))
    ++ trace deferred)%list, Some tt).
Proof.
  intros Hr [H1 H2]. rewrite (main_run w hostname Hr), H1, H2. reflexivity.
Qed.

(** C2: once the run has reached the browser, a failed navigation ends the
    process before any extraction or write; after a successful navigation all
    three extractions are run whatever the others returned, each failure is
    logged, and each successful extraction is followed by its write. *)
Theorem extraction_best_effort (w : World) (hostname : string) :
  reaches_navigation w hostname ->
  (navigation_ok w ->
   exited (main w) = false /\
   filter is_extraction (browser_actions (trace (main w)))
   = [OuterHTML "html"; FullScreenshot 90; Evaluate javascript] /\
   written_paths (trace (main w))
   = ((if is_ok (outer_html w)
       then [filepath_Join (folderPath w hostname) "page.html"] else [])
      ++ (if is_ok (full_screenshot w)
          then [filepath_Join (folderPath w hostname) "screenshot.png"] else [])
      ++ (if is_ok (decoded_links w)
          then [filepath_Join (folderPath w hostname) "links.txt"] else []))%list /\
   (forall e, outer_html w = Err e ->
              In ("Failed to retrieve content: " ++ " " ++ e ++ LF)
                 (logged (trace (main w)))) /\
   (forall e, full_screenshot w = Err e ->
              In ("Image fault: " ++ " " ++ e ++ LF) (logged (trace (main w)))) /\
   (forall e, returned_error (extractLinks w) = Some e ->
              In ("Failed to extract links: " ++ " " ++ e ++ LF)
                 (logged (trace (main w))))) /\
  (nav_err (navigate_1 w) <> None \/ nav_err (navigate_2 w) <> None ->
   exited (main w) = true /\
   filter is_extraction (browser_actions (trace (main w))) = [] /\
   written_paths (trace (main w)) = []).
Proof.
  intro Hr. split.
  - intro Hn. rewrite (main_run_ok w hostname Hr Hn).
    unfold exited. cbn [trace fst snd].
    repeat split.
    + autorewrite with traces.
      rewrite setup_actions, save_html_actions, save_screenshot_actions,
        save_links_actions. reflexivity.
    + autorewrite with traces.
      rewrite setup_writes, save_html_writes, save_screenshot_writes,
        save_links_writes. reflexivity.
    + intros e He. autorewrite with traces. rewrite !in_app_iff.
      rewrite save_html_run, He. cbn. auto 10.
    + intros e He. autorewrite with traces. rewrite !in_app_iff.
      rewrite save_screenshot_run, He. cbn. auto 10.
    + intros e He. autorewrite with traces. rewrite !in_app_iff.
      rewrite save_links_run, He. cbn. auto 10.
  - intro Hn. rewrite (main_run w hostname Hr). unfold exited. cbn [trace fst snd].
    destruct (nav_err (navigate_1 w)) as [e1|].
    + autorewrite with traces. rewrite setup_actions, setup_writes.
      repeat split; reflexivity.
    + destruct (nav_err (navigate_2 w)) as [e2|].
      * autorewrite with traces. rewrite setup_actions, setup_writes.
        repeat split; reflexivity.
      * destruct Hn as [Hn | Hn]; contradiction.
Qed.

Lemma extraction_best_effort_witness :
  written_paths
    (trace (main (set_full_screenshot sample_world (Err "context deadline exceeded"))))
  = [filepath_Join sample_folder "page.html"; filepath_Join sample_folder "links.txt"] /\
  exited (main (set_navigate_2 sample_world
                  {| nav_events := []; nav_err := Some "net::ERR_ABORTED" |})) = true.
Proof.
  split.
  - refine (proj1 (proj2 (proj2 (proj1
      (extraction_best_effort
         (set_full_screenshot sample_world (Err "context deadline exceeded"))
         "example.com" _) _)))).
    + repeat split. simpl. lia.
    + split; reflexivity.
  - refine (proj1 (proj2
      (extraction_best_effort
         (set_navigate_2 sample_world
            {| nav_events := []; nav_err := Some "net::ERR_ABORTED" |})
         "example.com" _) _)).
    + repeat split. simpl. lia.
    + right. simpl. discriminate.
Defined.

(** C3: when the navigation and the three extractions succeed, the file
    system is asked for one folder, named after the timestamp and the host
    name, and then for the three files page.html, screenshot.png and links.txt
    inside it, and for nothing else. *)
Theorem successful_run_files (w : World) (hostname html : string)
    (img : list Byte.byte) (links : list string) :
  reaches_navigation w hostname -> navigation_ok w ->
  outer_html w = Ok html -> full_screenshot w = Ok img -> decoded_links w = Ok links ->
  fs_ops (trace (main w))
  = [ EMkdirAll (folderPath w hostname) 493;
      EWriteFile (folderPath w hostname ++ "/page.html") (bytes html) 420;
      EWriteFile (folderPath w hostname ++ "/screenshot.png") img 420;
      EWriteFile (folderPath w hostname ++ "/links.txt") (bytes (strings_Join links LF)) 420 ] /\
  folderPath w hostname = "scraped_data/" ++ time_Now w ++ "_" ++ hostname.
Proof.
  intros Hr Hn Hh Hs Hl. split; [ | reflexivity].
  rewrite (main_run_ok w hostname Hr Hn). cbn [trace fst].
  autorewrite with traces. rewrite setup_fs_ops.
  rewrite save_html_run, save_screenshot_run, save_links_run, Hh, Hs.
  destruct (returned_links_decoded w links Hl) as [-> ->].
  cbv zeta. case_writes; reflexivity.
Qed.

Lemma successful_run_files_witness :
  fs_ops (trace (main sample_world))
  = [ EMkdirAll sample_folder 493;
      EWriteFile (sample_folder ++ "/page.html") (bytes "<html></html>") 420;
      EWriteFile (sample_folder ++ "/screenshot.png")
        [Byte.x89; Byte.x50; Byte.x4e; Byte.x47] 420;
      EWriteFile (sample_folder ++ "/links.txt")
        (bytes (strings_Join ["https://example.com/a"; "#icon"; "https://example.com/b"] LF))
        420 ] /\
  sample_folder = "scraped_data/" ++ "2024-05-06_07-08-09" ++ "_" ++ "example.com".
Proof.
  apply (successful_run_files sample_world "example.com" "<html></html>"
           [Byte.x89; Byte.x50; Byte.x4e; Byte.x47]
           ["https://example.com/a"; "#icon"; "https://example.com/b"]).
  - repeat split. simpl. lia.
  - split; reflexivity.
  - reflexivity.
  - reflexivity.
  - reflexivity.
Defined.

(** ** The links file *)

Lemma lines_no_lf (a : string) : no_lf a = true -> lines a = [a].
Proof.
  induction a as [|c a IH]; simpl; [reflexivity | ].
  intro H. apply andb_true_iff in H. destruct H as [Hc Ha].
  apply negb_true_iff in Hc. rewrite Hc, (IH Ha). reflexivity.
Qed.

Lemma lines_app_lf (a r : string) :
  no_lf a = true -> lines (a ++ String lf r) = a :: lines r.
Proof.
  induction a as [|c a IH]; simpl; [reflexivity | ].
  intro H. apply andb_true_iff in H. destruct H as [Hc Ha].
  apply negb_true_iff in Hc. rewrite Hc, (IH Ha). reflexivity.
Qed.

Lemma lines_newline_joined (links : list string) :
  links <> [] -> forallb no_lf links = true -> lines (newline_joined links) = links.
Proof.
  induction links as [|l [|r rest] IH]; intros Hne H.
  - congruence.
  - simpl in H. apply andb_true_iff in H. now apply lines_no_lf.
  - change (newline_joined (l :: r :: rest))
      with (l ++ String lf (newline_joined (r :: rest))).
    change (forallb no_lf (l :: r :: rest))
      with (no_lf l && forallb no_lf (r :: rest)) in H.
    apply andb_true_iff in H. destruct H as [Hl Hrest].
    rewrite (lines_app_lf _ _ Hl), IH; [reflexivity | discriminate | assumption].
Qed.

Lemma eqb_append_head (a b c : string) :
  String.eqb (a ++ b) (a ++ c) = String.eqb b c.
Proof.
  induction a as [|x a IH]; simpl; [reflexivity | ].
  now rewrite Ascii.eqb_refl.
Qed.

Lemma classification_no_write_to (path : string) (code : int64) (text : string) :
  filter (writes_to path) (trace (listNetworkRequests code text)) = [].
Proof. by_switch. Qed.

(** C5: the one write to links.txt carries the extracted links, in their
    order, joined by single line feeds; cutting that text at its line feeds
    gives the links back whenever none of them holds a line feed itself. *)
Theorem links_file_content (w : World) (hostname : string) (links : list string) :
  reaches_navigation w hostname -> navigation_ok w ->
  decoded_links w = Ok links ->
  filter (writes_to (folderPath w hostname ++ "/links.txt")) (trace (main w))
  = [EWriteFile (folderPath w hostname ++ "/links.txt") (bytes (newline_joined links)) 420] /\
  (links <> [] -> forallb no_lf links = true -> lines (newline_joined links) = links).
Proof.
  intros Hr Hn Hl. split; [ | apply lines_newline_joined].
  rewrite (main_run_ok w hostname Hr Hn). cbn [trace fst].
  rewrite !filter_app, classification_no_write_to.
  rewrite save_html_run, save_screenshot_run, save_links_run.
  destruct (returned_links_decoded w links Hl) as [-> ->].
  rewrite <- strings_Join_newline_joined.
  destruct (outer_html w), (full_screenshot w); cbv zeta; case_writes;
    unfold trace, filepath_Join; cbn [filter fst setup_trace writes_to];
    rewrite ?eqb_append_head; reflexivity.
Qed.

Lemma links_file_content_witness :
  filter (writes_to (sample_folder ++ "/links.txt")) (trace (main sample_world))
  = [EWriteFile (sample_folder ++ "/links.txt")
       (bytes ("https://example.com/a" ++ LF ++ "#icon" ++ LF ++ "https://example.com/b"))
       420] /\
  (["https://example.com/a"; "#icon"; "https://example.com/b"] <> [] ->
   forallb no_lf ["https://example.com/a"; "#icon"; "https://example.com/b"] = true ->
   lines ("https://example.com/a" ++ LF ++ "#icon" ++ LF ++ "https://example.com/b")
   = ["https://example.com/a"; "#icon"; "https://example.com/b"]).
Proof.
  apply (links_file_content sample_world "example.com"
           ["https://example.com/a"; "#icon"; "https://example.com/b"]).
  - repeat split. simpl. lia.
  - split; reflexivity.
  - reflexivity.
Defined.

(** ** Runs that end before the browser is used *)

Lemma main_no_args (w : World) :
  (List.length (os_Args w) < 2)%nat ->
  main w = ([ELog "Please provide a URL as a command-line argument."; EExit 1], None).
Proof.
  intro H. unfold main. apply Nat.ltb_lt in H. now rewrite H.
Qed.

Lemma main_bad_url (w : World) (e : error) :
  (2 <= List.length (os_Args w))%nat ->
  url_Parse w (rawURL w) = Err e ->
  main w = ([EStdout ("Navigating to URL: " ++ rawURL w ++ LF);
             ELog ("Invalid URL: " ++ e); EExit 1], None).
Proof.
  intros H Hp. unfold main. apply Nat.ltb_ge in H. rewrite H.
  fold (rawURL w). now rewrite Hp.
Qed.

Lemma main_mkdir_fails (w : World) (hostname : string) (e : error) :
  (2 <= List.length (os_Args w))%nat ->
  url_Parse w (rawURL w) = Ok hostname ->
  os_MkdirAll w (folderPath w hostname) = Some e ->
  main w = ([EStdout ("Navigating to URL: " ++ rawURL w ++ LF);
             EMkdirAll (folderPath w hostname) 493;
             ELog ("Failed to create directory: " ++ e); EExit 1], None).
Proof.
  intros H Hp Hm. unfold main. apply Nat.ltb_ge in H. rewrite H.
  fold (rawURL w). rewrite Hp. cbv zeta.
  change (filepath_Join "scraped_data" (time_Now w ++ "_" ++ hostname))
    with (folderPath w hostname).
  unfold MkdirAll, fmt_Print, emit. cbn [bind fst snd ret]. rewrite Hm. reflexivity.
Qed.

(** Every run either stops before the browser is used, having written no
    file, or reaches the first navigation. *)
Lemma main_cases (w : World) :
  (written_paths (trace (main w)) = [] /\ browser_actions (trace (main w)) = []
   /\ exited (main w) = true)
  \/ exists hostname, reaches_navigation w hostname.
Proof.
  destruct (Nat.lt_ge_cases (List.length (os_Args w)) 2) as [H | H].
  - left. rewrite (main_no_args w H). repeat split.
  - destruct (url_Parse w (rawURL w)) as [hostname|e] eqn:Hp.
    + destruct (os_MkdirAll w (folderPath w hostname)) as [e|] eqn:Hm.
      * left. rewrite (main_mkdir_fails w hostname e H Hp Hm). repeat split.
      * right. exists hostname. repeat split; assumption.
    + left. rewrite (main_bad_url w e H Hp). repeat split.
Qed.

(** The two navigations of a run in which the first one succeeds. *)
Lemma main_navigations (w : World) (hostname : string) :
  reaches_navigation w hostname -> nav_err (navigate_1 w) = None ->
  filter is_navigate (browser_actions (trace (main w)))
  = [Navigate (rawURL w); Navigate (rawURL w)].
Proof.
  intros Hr H1. rewrite (main_run w hostname Hr), H1. cbn [trace fst].
  autorewrite with traces. rewrite setup_actions.
  destruct (nav_err (navigate_2 w)); [reflexivity | ].
  autorewrite with traces.
  rewrite save_html_actions, save_screenshot_actions, save_links_actions. reflexivity.
Qed.

(** C6: in the run of the sample world, where every step succeeds, the URL is
    navigated to twice (lines 94 and 102 of main.go), not once. *)
Theorem main_navigates_twice :
  browser_actions (trace (main sample_world))
  = [ Navigate "https://example.com/"; Navigate "https://example.com/";
      OuterHTML "html"; FullScreenshot 90; Evaluate javascript ].
Proof. reflexivity. Qed.

(** C7: in every run the paths handed to [os.WriteFile] are pairwise
    different, so no file is written twice; [os.WriteFile] is the only
    writing call of the program. *)
Theorem files_written_once (w : World) :
  NoDup (written_paths (trace (main w))).
Proof.
  destruct (main_cases w) as [[H _] | [hostname Hr]].
  - rewrite H. constructor.
  - rewrite (main_run w hostname Hr). cbn [trace fst].
    autorewrite with traces. rewrite setup_writes.
    destruct (nav_err (navigate_1 w)); [constructor | ].
    destruct (nav_err (navigate_2 w)); [constructor | ].
    autorewrite with traces.
    rewrite save_html_writes, save_screenshot_writes, save_links_writes.
    assert (D : forall a b : string,
               String.eqb a b = false ->
               filepath_Join (folderPath w hostname) a
               <> filepath_Join (folderPath w hostname) b).
    { intros a b E Heq. unfold filepath_Join in Heq.
      apply append_inv_head in Heq. injection Heq as Heq.
      apply String.eqb_neq in E. contradiction. }
    destruct (is_ok (outer_html w)), (is_ok (full_screenshot w)),
      (is_ok (decoded_links w)); cbn [app];
      repeat (constructor; cbn [In]; try tauto);
      intuition (try (eapply D; [ | eassumption]; reflexivity)).
Qed.



(** * Further properties of the code *)

(** ** Status codes outside the table *)

(** X1: a captured code that is not zero and lies below 200 (the 1xx range,
    negative values) reaches the [default] case: after the header line the
    logger gets the UNKNOWN STATUS line. *)
Theorem listNetworkRequests_unknown (code : int64) (text : string) :
  code <> 0%Z -> (code < 200)%Z ->
  listNetworkRequests code text
  = ([EStdout ("Request network: " ++ fmt_d code ++ " (" ++ text ++ ")" ++ LF);
      ELog ("Request UNKNOWN STATUS: " ++ fmt_d code ++ LF)], Some tt).
Proof.
  intros H0 H. unfold listNetworkRequests.
  repeat match goal with
         | |- context [(?a =? ?b)%Z] => destruct (Z.eqb_spec a b); try lia
         | |- context [(?a <=? ?b)%Z] => destruct (Z.leb_spec a b); try lia
         | |- context [(?a <? ?b)%Z] => destruct (Z.ltb_spec a b); try lia
         end; reflexivity.
Qed.

Lemma listNetworkRequests_unknown_witness :
  listNetworkRequests 101%Z "Switching Protocols"
  = ([EStdout ("Request network: 101 (Switching Protocols)" ++ LF);
      ELog ("Request UNKNOWN STATUS: 101" ++ LF)], Some tt) /\
  listNetworkRequests (-1)%Z ""
  = ([EStdout ("Request network: -1 ()" ++ LF);
      ELog ("Request UNKNOWN STATUS: -1" ++ LF)], Some tt).
Proof.
  split.
  - apply (listNetworkRequests_unknown 101%Z "Switching Protocols"); lia.
  - apply (listNetworkRequests_unknown (-1)%Z ""); lia.
Defined.

(** ** The listener *)

(** X2: the listener keeps the status of the last main-document response of
    the first navigation: earlier document responses (a redirect) are
    overwritten, responses of other resources and other events change
    nothing. *)
Theorem listener_keeps_last_document (w : World)
    (before after : list TargetEvent) (status : int64) (text : string) :
  nav_events (navigate_1 w)
  = (before ++ EventResponseReceived ResourceTypeDocument status text :: after)%list ->
  forallb (fun ev => negb (is_document_response ev)) after = true ->
  captured w = (status, text).
Proof.
  intros Hev Hafter. unfold captured. rewrite Hev, fold_left_app.
  cbn [fold_left listener]. now apply listener_no_document.
Qed.

Lemma listener_keeps_last_document_witness :
  captured (set_navigate_1 sample_world redirected) = (403%Z, "Forbidden").
Proof.
  apply (listener_keeps_last_document (set_navigate_1 sample_world redirected)
           [EventResponseReceived ResourceTypeDocument 301%Z "Moved Permanently"]
           [EventResponseReceived ResourceTypeImage 200%Z "OK"; EventOther]
           403%Z "Forbidden").
  - reflexivity.
  - reflexivity.
Defined.

(** ** Fatal ends *)

(** X3: the status report comes before the error check: when a navigation
    fails, what the listener captured is still classified and printed, and
    only then the process exits; a failure of the second navigation exits
    right after it. *)
Theorem status_reported_before_fatal (w : World) (hostname : string) (e : error) :
  reaches_navigation w hostname ->
  (nav_err (navigate_1 w) = Some e ->
   main w
   = ((setup_trace w hostname ++ [ERun (Navigate (rawURL w))]
       ++ trace (listNetworkRequests (fst (captured w)) (snd (captured w)))
       ++ [ELog ("Failed to navigate: " ++ e); EExit 1])%list, None)) /\
  (nav_err (navigate_1 w) = None -> nav_err (navigate_2 w) = Some e ->
   main w
   = ((setup_trace w hostname ++ [ERun (Navigate (rawURL w))]
       ++ trace (listNetworkRequests (fst (captured w)) (snd (captured w)))
       ++ [ERun (Navigate (rawURL w)); ELog ("Failed to navigate: " ++ e); EExit 1])%list,
      None)).
Proof.
  intro Hr. split.
  - intro H1. rewrite (main_run w hostname Hr), H1. reflexivity.
  - intros H1 H2. rewrite (main_run w hostname Hr), H1, H2. reflexivity.
Qed.

Lemma status_reported_before_fatal_witness :
  main (set_navigate_1 sample_world redirected)
  = ((setup_trace sample_world "example.com"
      ++ [ERun (Navigate "https://example.com/");
          EStdout ("Request network: 403 (Forbidden)" ++ LF);
          ELog ("Request FORBIDDEN (403): Access denied (WAF or Bot Protection)." ++ LF);
          ELog "Failed to navigate: net::ERR_BLOCKED_BY_CLIENT"; EExit 1])%list, None).
Proof.
  refine (proj1 (status_reported_before_fatal
                   (set_navigate_1 sample_world redirected) "example.com"
                   "net::ERR_BLOCKED_BY_CLIENT" _) _).
  - repeat split. simpl. lia.
  - reflexivity.
Defined.

(** X4: when the folder cannot be created the process exits with status 1
    right after the [MkdirAll] call: no context is set up, the browser is not
    used and no file is written. *)
Theorem folder_creation_failure (w : World) (hostname : string) (e : error) :
  (2 <= List.length (os_Args w))%nat ->
  url_Parse w (rawURL w) = Ok hostname ->
  os_MkdirAll w (folderPath w hostname) = Some e ->
  main w = ([EStdout ("Navigating to URL: " ++ rawURL w ++ LF);
             EMkdirAll (folderPath w hostname) 493;
             ELog ("Failed to create directory: " ++ e); EExit 1], None) /\
  browser_actions (trace (main w)) = [] /\
  written_paths (trace (main w)) = [].
Proof.
  intros H Hp Hm. rewrite (main_mkdir_fails w hostname e H Hp Hm). repeat split.
Qed.

Lemma folder_creation_failure_witness :
  main (set_os_MkdirAll sample_world (fun _ => Some "permission denied"))
  = ([EStdout ("Navigating to URL: https://example.com/" ++ LF);
      EMkdirAll sample_folder 493;
      ELog "Failed to create directory: permission denied"; EExit 1], None) /\
  browser_actions
    (trace (main (set_os_MkdirAll sample_world (fun _ => Some "permission denied")))) = [] /\
  written_paths
    (trace (main (set_os_MkdirAll sample_world (fun _ => Some "permission denied")))) = [].
Proof.
  apply (folder_creation_failure
           (set_os_MkdirAll sample_world (fun _ => Some "permission denied"))
           "example.com" "permission denied").
  - simpl. lia.
  - reflexivity.
  - reflexivity.
Defined.

(** ** Write errors *)

Lemma save_html_fs_ops (w : World) (dir : string) :
  fs_ops (trace (save_html w dir))
  = match outer_html w with
    | Ok html => [EWriteFile (filepath_Join dir "page.html") (bytes html) 420]
    | Err _ => []
    end.
Proof. rewrite save_html_run. destruct (outer_html w); case_writes; reflexivity. Qed.

Lemma save_screenshot_fs_ops (w : World) (dir : string) :
  fs_ops (trace (save_screenshot w dir))
  = match full_screenshot w with
    | Ok img => [EWriteFile (filepath_Join dir "screenshot.png") img 420]
    | Err _ => []
    end.
Proof.
  rewrite save_screenshot_run. destruct (full_screenshot w); case_writes; reflexivity.
Qed.

Lemma save_links_fs_ops (w : World) (dir : string) :
  fs_ops (trace (save_links w dir))
  = match decoded_links w with
    | Ok links =>
        [EWriteFile (filepath_Join dir "links.txt") (bytes (strings_Join links LF)) 420]
    | Err _ => []
    end.
Proof.
  rewrite save_links_run.
  unfold returned_error, returned_links, extractLinks, decoded_links.
  destruct (evaluate w) as [j|e]; [destruct (json_Unmarshal j) | ];
    cbn [bind emit ret fst snd]; cbv zeta; case_writes; reflexivity.
Qed.

(** The file-system calls of a run that reaches the browser. *)
Lemma main_fs_ops (w : World) (hostname : string) :
  reaches_navigation w hostname ->
  fs_ops (trace (main w))
  = (EMkdirAll (folderPath w hostname) 493
     :: match nav_err (navigate_1 w), nav_err (navigate_2 w) with
        | None, None =>
            fs_ops (trace (save_html w (folderPath w hostname)))
            ++ fs_ops (trace (save_screenshot w (folderPath w hostname)))
            ++ fs_ops (trace (save_links w (folderPath w hostname)))
        | _, _ => []
        end)%list.
Proof.
  intro Hr. rewrite (main_run w hostname Hr). cbn [trace fst].
  autorewrite with traces. rewrite setup_fs_ops.
  destruct (nav_err (navigate_1 w)); [reflexivity | ].
  destruct (nav_err (navigate_2 w)); [reflexivity | ].
  autorewrite with traces. reflexivity.
Qed.

(** The actions of a run that reaches the browser. *)
Lemma main_actions (w : World) (hostname : string) :
  reaches_navigation w hostname ->
  browser_actions (trace (main w))
  = match nav_err (navigate_1 w), nav_err (navigate_2 w) with
    | Some _, _ => firstn 1 (all_actions w)
    | None, Some _ => firstn 2 (all_actions w)
    | None, None => all_actions w
    end.
Proof.
  intro Hr. rewrite (main_run w hostname Hr). cbn [trace fst].
  autorewrite with traces. rewrite setup_actions.
  destruct (nav_err (navigate_1 w)); [reflexivity | ].
  destruct (nav_err (navigate_2 w)); [reflexivity | ].
  autorewrite with traces.
  rewrite save_html_actions, save_screenshot_actions, save_links_actions. reflexivity.
Qed.

Lemma main_exited (w : World) (hostname : string) :
  reaches_navigation w hostname ->
  exited (main w)
  = match nav_err (navigate_1 w), nav_err (navigate_2 w) with
    | None, None => false
    | _, _ => true
    end.
Proof.
  intro Hr. rewrite (main_run w hostname Hr). unfold exited. cbn [snd].
  destruct (nav_err (navigate_1 w)), (nav_err (navigate_2 w)); reflexivity.
Qed.

(** Every run either stops before the folder exists, with the same outcome
    whatever [os.WriteFile] would answer, or reaches the first navigation. *)
Lemma main_early_or_reaches (w : World) :
  (forall f, main (set_os_WriteFile w f) = main w)
  \/ exists hostname, reaches_navigation w hostname.
Proof.
  destruct (Nat.lt_ge_cases (List.length (os_Args w)) 2) as [H | H].
  - left. intro f. rewrite (main_no_args w H).
    now rewrite (main_no_args (set_os_WriteFile w f) H).
  - destruct (url_Parse w (rawURL w)) as [hostname|e] eqn:Hp.
    + destruct (os_MkdirAll w (folderPath w hostname)) as [e|] eqn:Hm.
      * left. intro f. rewrite (main_mkdir_fails w hostname e H Hp Hm).
        now rewrite (main_mkdir_fails (set_os_WriteFile w f) hostname e H Hp Hm).
      * right. exists hostname. repeat split; assumption.
    + left. intro f. rewrite (main_bad_url w e H Hp).
      now rewrite (main_bad_url (set_os_WriteFile w f) e H Hp).
Qed.

(** X5: an error of [os.WriteFile] is only logged: whatever the writes
    answer, the run makes the same file-system calls with the same data, asks
    the browser for the same actions and ends the same way. *)
Theorem write_errors_change_nothing (w : World)
    (f : string -> list Byte.byte -> option error) :
  fs_ops (trace (main (set_os_WriteFile w f))) = fs_ops (trace (main w)) /\
  browser_actions (trace (main (set_os_WriteFile w f))) = browser_actions (trace (main w)) /\
  exited (main (set_os_WriteFile w f)) = exited (main w).
Proof.
  destruct (main_early_or_reaches w) as [H | [hostname Hr]].
  - rewrite H. repeat split.
  - assert (Hr' : reaches_navigation (set_os_WriteFile w f) hostname) by exact Hr.
    rewrite (main_fs_ops _ _ Hr), (main_fs_ops _ _ Hr').
    rewrite (main_actions _ _ Hr), (main_actions _ _ Hr').
    rewrite (main_exited _ _ Hr), (main_exited _ _ Hr').
    rewrite !save_html_fs_ops, !save_screenshot_fs_ops, !save_links_fs_ops.
    repeat split.
Qed.

(** ** Where files go *)

(** X6: a file is only ever written after the folder was created and both
    navigations succeeded, and only at one of the three paths page.html,
    screenshot.png and links.txt directly inside the run's folder. *)
Theorem writes_stay_in_folder (w : World) (path : string) :
  In path (written_paths (trace (main w))) ->
  exists hostname,
    reaches_navigation w hostname /\ navigation_ok w /\
    (path = folderPath w hostname ++ "/page.html" \/
     path = folderPath w hostname ++ "/screenshot.png" \/
     path = folderPath w hostname ++ "/links.txt").
Proof.
  destruct (main_cases w) as [[H _] | [hostname Hr]].
  - rewrite H. contradiction.
  - rewrite (main_run w hostname Hr). cbn [trace fst].
    autorewrite with traces. rewrite setup_writes.
    destruct (nav_err (navigate_1 w)) eqn:H1; [contradiction | ].
    destruct (nav_err (navigate_2 w)) eqn:H2; [contradiction | ].
    autorewrite with traces.
    rewrite save_html_writes, save_screenshot_writes, save_links_writes.
    intro Hin. exists hostname. split; [exact Hr | split; [split; assumption | ]].
    destruct (is_ok (outer_html w)), (is_ok (full_screenshot w)),
      (is_ok (decoded_links w)); cbn in Hin; unfold filepath_Join in Hin;
      intuition (subst; auto).
Qed.

Lemma writes_stay_in_folder_witness :
  exists hostname,
    reaches_navigation sample_world hostname /\ navigation_ok sample_world /\
    (sample_folder ++ "/links.txt" = folderPath sample_world hostname ++ "/page.html" \/
     sample_folder ++ "/links.txt" = folderPath sample_world hostname ++ "/screenshot.png" \/
     sample_folder ++ "/links.txt" = folderPath sample_world hostname ++ "/links.txt").
Proof.
  apply (writes_stay_in_folder sample_world (sample_folder ++ "/links.txt")).
  simpl. right. right. left. reflexivity.
Defined.

(** ** The order of the browser actions *)

(** X7: in every run the actions handed to the browser are an initial part
    of one fixed sequence: the navigation to [os.Args[1]] twice, then the HTML
    of the [html] element, the full screenshot at quality 90 and the link
    script; a run stops after none, one or two of them, or performs all
    five. *)
Theorem browser_actions_in_order (w : World) :
  exists n, In n [0; 1; 2; 5]%nat /\
            browser_actions (trace (main w)) = firstn n (all_actions w).
Proof.
  destruct (main_cases w) as [[_ [H _]] | [hostname Hr]].
  - exists 0%nat. split; [now left | exact H].
  - rewrite (main_actions w hostname Hr).
    destruct (nav_err (navigate_1 w)); [exists 1%nat; simpl; auto | ].
    destruct (nav_err (navigate_2 w)); [exists 2%nat; simpl; auto | ].
    exists 5%nat. simpl. auto 6.
Qed.

(** ** How a run ends *)

Lemma classification_no_cancel (code : int64) (text : string) :
  filter is_cancel (trace (listNetworkRequests code text)) = [].
Proof. by_switch. Qed.

Lemma classification_no_exit (code : int64) (text : string) :
  filter is_exit (trace (listNetworkRequests code text)) = [].
Proof. by_switch. Qed.

Ltac quiet_blocks :=
  rewrite ?save_html_run, ?save_screenshot_run, ?save_links_run;
  repeat match goal with
         | |- context [outer_html ?w] => destruct (outer_html w)
         | |- context [full_screenshot ?w] => destruct (full_screenshot w)
         | |- context [returned_error ?r] => destruct (returned_error r)
         end;
  cbv zeta; case_writes; reflexivity.

Lemma blocks_no_cancel (w : World) (dir : string) :
  filter is_cancel (trace (save_html w dir)) = [] /\
  filter is_cancel (trace (save_screenshot w dir)) = [] /\
  filter is_cancel (trace (save_links w dir)) = [].
Proof. repeat split; quiet_blocks. Qed.

Lemma blocks_no_exit (w : World) (dir : string) :
  filter is_exit (trace (save_html w dir)) = [] /\
  filter is_exit (trace (save_screenshot w dir)) = [] /\
  filter is_exit (trace (save_links w dir)) = [].
Proof. repeat split; quiet_blocks. Qed.

(** X8: the deferred cancel functions run only when [main] returns: a run
    that goes through ends with the three cancels, last registered first, and
    has no exit event; a run ended by [log.Fatal] ends with its log line and
    exit status 1 and releases nothing. *)
Theorem cancels_only_on_return (w : World) :
  (exited (main w) = false ->
   filter is_cancel (trace (main w))
   = [ECancel TimeoutCtx; ECancel BrowserCtx; ECancel AllocCtx] /\
   filter is_exit (trace (main w)) = [] /\
   exists t, trace (main w)
             = (t ++ [ECancel TimeoutCtx; ECancel BrowserCtx; ECancel AllocCtx])%list) /\
  (exited (main w) = true ->
   filter is_cancel (trace (main w)) = [] /\
   filter is_exit (trace (main w)) = [EExit 1] /\
   exists t msg, trace (main w) = (t ++ [ELog msg; EExit 1])%list).
Proof.
  destruct (Nat.lt_ge_cases (List.length (os_Args w)) 2) as [H | H].
  { rewrite (main_no_args w H). split; [discriminate | intros _].
    repeat split. exists [], "Please provide a URL as a command-line argument.".
    reflexivity. }
  destruct (url_Parse w (rawURL w)) as [hostname|e] eqn:Hp.
  2:{ rewrite (main_bad_url w e H Hp). split; [discriminate | intros _].
      repeat split. exists [EStdout ("Navigating to URL: " ++ rawURL w ++ LF)],
        ("Invalid URL: " ++ e). reflexivity. }
  destruct (os_MkdirAll w (folderPath w hostname)) as [e|] eqn:Hm.
  { rewrite (main_mkdir_fails w hostname e H Hp Hm). split; [discriminate | intros _].
    repeat split.
    exists [EStdout ("Navigating to URL: " ++ rawURL w ++ LF);
            EMkdirAll (folderPath w hostname) 493],
      ("Failed to create directory: " ++ e). reflexivity. }
  assert (Hr : reaches_navigation w hostname) by (repeat split; assumption).
  rewrite (main_run w hostname Hr). unfold exited. cbn [trace fst snd].
  set (c := trace (listNetworkRequests (fst (captured w)) (snd (captured w)))).
  assert (Hc1 : filter is_cancel c = []) by apply classification_no_cancel.
  assert (Hc2 : filter is_exit c = []) by apply classification_no_exit.
  destruct (nav_err (navigate_1 w)) as [e1|].
  { split; [discriminate | intros _].
    rewrite !filter_app, Hc1, Hc2. repeat split.
    exists (setup_trace w hostname ++ [ERun (Navigate (rawURL w))] ++ c)%list,
      ("Failed to navigate: " ++ e1).
    rewrite <- !app_assoc. reflexivity. }
  destruct (nav_err (navigate_2 w)) as [e2|].
  { split; [discriminate | intros _].
    rewrite !filter_app, Hc1, Hc2. repeat split.
    exists (setup_trace w hostname ++ [ERun (Navigate (rawURL w))] ++ c
            ++ [ERun (Navigate (rawURL w))])%list,
      ("Failed to navigate: " ++ e2).
    rewrite <- !app_assoc. reflexivity. }
  split; [intros _ | discriminate].
  destruct (blocks_no_cancel w (folderPath w hostname)) as [B1 [B2 B3]].
  destruct (blocks_no_exit w (folderPath w hostname)) as [B4 [B5 B6]].
  rewrite !filter_app, Hc1, Hc2, B1, B2, B3, B4, B5, B6. repeat split.
  exists (setup_trace w hostname ++ [ERun (Navigate (rawURL w))] ++ c
          ++ [ERun (Navigate (rawURL w))]
          ++ trace (save_html w (folderPath w hostname))
          ++ trace (save_screenshot w (folderPath w hostname))
          ++ trace (save_links w (folderPath w hostname)))%list.
  rewrite <- !app_assoc. reflexivity.
Qed.

Lemma cancels_only_on_return_witness :
  filter is_cancel (trace (main sample_world))
  = [ECancel TimeoutCtx; ECancel BrowserCtx; ECancel AllocCtx] /\
  filter is_cancel (trace (main (set_navigate_1 sample_world redirected))) = [].
Proof.
  split.
  - apply (proj1 (cancels_only_on_return sample_world)). reflexivity.
  - apply (proj2 (cancels_only_on_return (set_navigate_1 sample_world redirected))).
    reflexivity.
Defined.

(** ** What the files hold *)

Lemma decoded_links_script (w : World) (anchors : list JsValue) :
  evaluate w = script_reply anchors -> decoded_links w = Ok (kept_hrefs anchors).
Proof.
  intro H. unfold decoded_links.
  now rewrite H, script_reply_kept, json_Unmarshal_stringified.
Qed.

(** What a block of a run that goes through emits is part of the run. *)
Lemma main_includes_blocks (w : World) (hostname : string) (e : Event) :
  reaches_navigation w hostname -> navigation_ok w ->
  In e (trace (save_html w (folderPath w hostname)))
  \/ In e (trace (save_screenshot w (folderPath w hostname)))
  \/ In e (trace (save_links w (folderPath w hostname))) ->
  In e (trace (main w)).
Proof.
  intros Hr Hn H. rewrite (main_run_ok w hostname Hr Hn). cbn [trace fst] in *.
  rewrite !in_app_iff. tauto.
Qed.

(** X9: a page none of whose anchors has a usable href still gets its
    links.txt: the file is written with no content, and the run reports
    0 links when the write goes through. *)
Theorem empty_links_file (w : World) (hostname : string) (anchors : list JsValue) :
  reaches_navigation w hostname -> navigation_ok w ->
  evaluate w = script_reply anchors -> kept_hrefs anchors = [] ->
  In (EWriteFile (folderPath w hostname ++ "/links.txt") [] 420) (trace (main w)) /\
  (os_WriteFile w (folderPath w hostname ++ "/links.txt") [] = None ->
   In (EStdout ("Links saved to 0 links in "
                ++ (folderPath w hostname ++ "/links.txt") ++ LF))
      (trace (main w))).
Proof.
  intros Hr Hn He Hk.
  pose proof (decoded_links_script w anchors He) as Hd. rewrite Hk in Hd.
  destruct (returned_links_decoded w [] Hd) as [Hl Herr].
  split; [ | intro Hw]; apply (main_includes_blocks w hostname _ Hr Hn);
    right; right; rewrite save_links_run, Herr, Hl; cbv zeta;
    change (bytes (strings_Join [] LF)) with (@nil Byte.byte);
    change (filepath_Join (folderPath w hostname) "links.txt")
      with (folderPath w hostname ++ "/links.txt").
  - unfold trace. cbn [fst In]. right. left. reflexivity.
  - rewrite Hw. unfold trace. cbn [fst In]. right. right. left. reflexivity.
Qed.

Lemma empty_links_file_witness :
  In (EWriteFile (sample_folder ++ "/links.txt") [] 420)
     (trace (main (set_evaluate sample_world (script_reply bare_anchors)))) /\
  (os_WriteFile (set_evaluate sample_world (script_reply bare_anchors))
     (sample_folder ++ "/links.txt") [] = None ->
   In (EStdout ("Links saved to 0 links in " ++ (sample_folder ++ "/links.txt") ++ LF))
      (trace (main (set_evaluate sample_world (script_reply bare_anchors))))).
Proof.
  apply (empty_links_file (set_evaluate sample_world (script_reply bare_anchors))
           "example.com" bare_anchors).
  - repeat split. simpl. lia.
  - split; reflexivity.
  - reflexivity.
  - reflexivity.
Defined.

(** X10: each of the first two artifacts is saved on its own: whenever its
    extraction succeeds after the navigation, the one write to its file
    carries exactly what the browser returned (the HTML text as bytes, the
    screenshot buffer), whatever happens to the other extractions and to the
    writes. *)
Theorem artifact_contents (w : World) (hostname : string) :
  reaches_navigation w hostname -> navigation_ok w ->
  (forall html, outer_html w = Ok html ->
     filter (writes_to (folderPath w hostname ++ "/page.html")) (trace (main w))
     = [EWriteFile (folderPath w hostname ++ "/page.html") (bytes html) 420]) /\
  (forall img, full_screenshot w = Ok img ->
     filter (writes_to (folderPath w hostname ++ "/screenshot.png")) (trace (main w))
     = [EWriteFile (folderPath w hostname ++ "/screenshot.png") img 420]).
Proof.
  intros Hr Hn. rewrite (main_run_ok w hostname Hr Hn). cbn [trace fst].
  rewrite !filter_app, !classification_no_write_to.
  rewrite save_html_run, save_screenshot_run, save_links_run.
  split; [intros html H | intros img H]; rewrite H;
    [destruct (full_screenshot w) | destruct (outer_html w)];
    destruct (returned_error (extractLinks w)); cbv zeta; case_writes;
    unfold trace, filepath_Join; cbn [filter fst setup_trace writes_to];
    rewrite ?eqb_append_head; reflexivity.
Qed.

Lemma artifact_contents_witness :
  filter (writes_to (sample_folder ++ "/page.html"))
    (trace (main (set_full_screenshot sample_world (Err "context deadline exceeded"))))
  = [EWriteFile (sample_folder ++ "/page.html") (bytes "<html></html>") 420].
Proof.
  refine (proj1 (artifact_contents
                   (set_full_screenshot sample_world (Err "context deadline exceeded"))
                   "example.com" _ _) "<html></html>" _).
  - repeat split. simpl. lia.
  - split; reflexivity.
  - reflexivity.
Defined.

(** ** The order of the links *)

Lemma kept_hrefs_app (a1 a2 : list JsValue) :
  kept_hrefs (a1 ++ a2) = (kept_hrefs a1 ++ kept_hrefs a2)%list.
Proof.
  unfold kept_hrefs, js_strings. now rewrite map_app, filter_app, flat_map_app.
Qed.

Lemma kept_hrefs_length (anchors : list JsValue) :
  (List.length (kept_hrefs anchors) <= List.length anchors)%nat.
Proof.
  unfold kept_hrefs, js_strings.
  induction anchors as [|a anchors IH]; cbn [map filter flat_map List.length]; [lia | ].
  destruct (script_filter (script_map a)) eqn:E; [ | lia].
  destruct (script_filter_string _ E) as [s [-> _]].
  cbn [flat_map app List.length]. lia.
Qed.

(** X11: the returned links follow the order of the anchors in the document,
    at most one per anchor and with repetitions kept: the links of two
    stretches of anchors one after the other are the links of the first
    followed by the links of the second. *)
Theorem links_in_document_order (w : World) (a1 a2 : list JsValue) :
  evaluate w = script_reply (a1 ++ a2) ->
  returned_links (extractLinks w) = (kept_hrefs a1 ++ kept_hrefs a2)%list /\
  (List.length (returned_links (extractLinks w)) <= List.length a1 + List.length a2)%nat.
Proof.
  intro H.
  destruct (returned_links_decoded w _ (decoded_links_script w _ H)) as [Hl _].
  rewrite Hl, kept_hrefs_app. split; [reflexivity | ].
  rewrite length_app.
  pose proof (kept_hrefs_length a1). pose proof (kept_hrefs_length a2). lia.
Qed.

Lemma links_in_document_order_witness :
  returned_links (extractLinks sample_world)
  = (kept_hrefs (firstn 3 sample_anchors) ++ kept_hrefs (skipn 3 sample_anchors))%list /\
  (List.length (returned_links (extractLinks sample_world))
   <= List.length (firstn 3 sample_anchors) + List.length (skipn 3 sample_anchors))%nat.
Proof.
  apply (links_in_document_order sample_world
           (firstn 3 sample_anchors) (skipn 3 sample_anchors)).
  reflexivity.
Defined.

(** ** Failures in the log *)

Lemma save_screenshot_starts (w : World) (dir : string) :
  exists rest, trace (save_screenshot w dir) = ERun (FullScreenshot 90) :: rest.
Proof.
  rewrite save_screenshot_run. destruct (full_screenshot w); eexists; reflexivity.
Qed.

Lemma save_links_starts (w : World) (dir : string) :
  exists rest, trace (save_links w dir) = ERun (Evaluate javascript) :: rest.
Proof.
  rewrite save_links_run. destruct (returned_error (extractLinks w)); eexists; reflexivity.
Qed.

(** X12: a failed HTML retrieval or screenshot leaves two log lines, one from
    the helper and one from [main], both with the error of [chromedp.Run] as
    it is; nothing is written for it, and the next extraction follows at
    once. *)
Theorem failed_retrieval_logged_twice (w : World) (hostname : string) (e : error) :
  reaches_navigation w hostname -> navigation_ok w ->
  (outer_html w = Err e ->
   exists t1 t2,
     trace (main w)
     = (t1 ++ [ERun (OuterHTML "html");
               ELog ("Error retrieving content: " ++ e);
               ELog ("Failed to retrieve content: " ++ " " ++ e ++ LF);
               ERun (FullScreenshot 90)] ++ t2)%list) /\
  (full_screenshot w = Err e ->
   exists t1 t2,
     trace (main w)
     = (t1 ++ [ERun (FullScreenshot 90);
               ELog ("Error capturing screenshot: " ++ e);
               ELog ("Image fault: " ++ " " ++ e ++ LF);
               ERun (Evaluate javascript)] ++ t2)%list).
Proof.
  intros Hr Hn. rewrite (main_run_ok w hostname Hr Hn).
  unfold trace at 1. cbn [fst].
  set (c := trace (listNetworkRequests (fst (captured w)) (snd (captured w)))).
  split; intro H.
  - destruct (save_screenshot_starts w (folderPath w hostname)) as [rest Hs].
    rewrite Hs, save_html_run, H.
    exists (setup_trace w hostname ++ [ERun (Navigate (rawURL w))] ++ c
            ++ [ERun (Navigate (rawURL w))])%list.
    exists (rest ++ trace (save_links w (folderPath w hostname)) ++ trace deferred)%list.
    rewrite <- !app_assoc. reflexivity.
  - destruct (save_links_starts w (folderPath w hostname)) as [rest Hs].
    rewrite Hs, save_screenshot_run, H.
    exists (setup_trace w hostname ++ [ERun (Navigate (rawURL w))] ++ c
            ++ [ERun (Navigate (rawURL w))]
            ++ trace (save_html w (folderPath w hostname)))%list.
    exists (rest ++ trace deferred)%list.
    rewrite <- !app_assoc. reflexivity.
Qed.

Lemma failed_retrieval_logged_twice_witness :
  exists t1 t2,
    trace (main (set_outer_html sample_world (Err "context canceled")))
    = (t1 ++ [ERun (OuterHTML "html");
              ELog "Error retrieving content: context canceled";
              ELog ("Failed to retrieve content:  context canceled" ++ LF);
              ERun (FullScreenshot 90)] ++ t2)%list.
Proof.
  refine (proj1 (failed_retrieval_logged_twice
                   (set_outer_html sample_world (Err "context canceled"))
                   "example.com" "context canceled" _ _) _).
  - repeat split. simpl. lia.
  - split; reflexivity.
  - reflexivity.
Defined.

(** X13: a failed link extraction leaves one log line, and its message tells
    the two causes apart: the error of the evaluation is wrapped as
    "error extracting links: ...", the error of the decoder as
    "error unmarshaling JSON: ..."; in both cases links.txt is not written. *)
Theorem failed_links_logged (w : World) (hostname : string) :
  reaches_navigation w hostname -> navigation_ok w ->
  (forall e, evaluate w = Err e ->
     In (ELog ("Failed to extract links: " ++ " "
               ++ ("error extracting links: " ++ e) ++ LF)) (trace (main w)) /\
     filter (writes_to (folderPath w hostname ++ "/links.txt")) (trace (main w)) = []) /\
  (forall jsonResult e,
     evaluate w = Ok jsonResult -> json_Unmarshal jsonResult = Err e ->
     In (ELog ("Failed to extract links: " ++ " "
               ++ ("error unmarshaling JSON: " ++ e) ++ LF)) (trace (main w)) /\
     filter (writes_to (folderPath w hostname ++ "/links.txt")) (trace (main w)) = []).
Proof.
  intros Hr Hn.
  assert (G : forall msg,
             returned_error (extractLinks w) = Some msg ->
             In (ELog ("Failed to extract links: " ++ " " ++ msg ++ LF)) (trace (main w)) /\
             filter (writes_to (folderPath w hostname ++ "/links.txt")) (trace (main w))
             = []).
  { intros msg Hm. split.
    - apply (main_includes_blocks w hostname _ Hr Hn). right. right.
      rewrite save_links_run, Hm. unfold trace. cbn [fst In]. right. left. reflexivity.
    - rewrite (main_run_ok w hostname Hr Hn). cbn [trace fst].
      rewrite !filter_app, classification_no_write_to.
      rewrite save_html_run, save_screenshot_run, save_links_run, Hm.
      destruct (outer_html w), (full_screenshot w); case_writes;
        unfold trace, filepath_Join; cbn [filter fst setup_trace writes_to];
        rewrite ?eqb_append_head; reflexivity. }
  split.
  - intros e He. apply G. unfold returned_error, extractLinks. now rewrite He.
  - intros j e He Hd. apply G. unfold returned_error, extractLinks.
    now rewrite He, Hd.
Qed.

Lemma failed_links_logged_witness :
  In (ELog ("Failed to extract links: " ++ " "
            ++ ("error unmarshaling JSON: " ++ "invalid JSON for []string") ++ LF))
     (trace (main (set_evaluate sample_world (Ok "[1, 2]")))) /\
  filter (writes_to (sample_folder ++ "/links.txt"))
    (trace (main (set_evaluate sample_world (Ok "[1, 2]")))) = [].
Proof.
  refine (proj2 (failed_links_logged (set_evaluate sample_world (Ok "[1, 2]"))
                   "example.com" _ _) "[1, 2]" "invalid JSON for []string" _ _).
  - repeat split. simpl. lia.
  - split; reflexivity.
  - reflexivity.
  - reflexivity.
Defined.

(** ** Which anchors give a link *)

(** X14: what one anchor contributes.  A string href is kept as it is unless
    it is empty; an object href contributes its [baseVal] when that is a
    non-empty string, and nothing otherwise (its other properties are not
    looked at); a null or missing href contributes nothing. *)
Theorem link_of_one_anchor (a : JsValue) :
  (forall s, js_get a "href" = JsString s ->
             kept_hrefs [a] = if String.eqb s "" then [] else [s]) /\
  (forall props, js_get a "href" = JsObject props ->
                 kept_hrefs [a]
                 = match lookup_prop "baseVal" props with
                   | JsString s => if String.eqb s "" then [] else [s]
                   | _ => []
                   end) /\
  (js_get a "href" = JsNull \/ js_get a "href" = JsUndefined -> kept_hrefs [a] = []).
Proof.
  unfold kept_hrefs, script_map. cbn [map filter].
  split; [ | split].
  - intros s H. rewrite H. cbn. destruct (String.eqb s ""); reflexivity.
  - intros props H. rewrite H. cbn.
    destruct (lookup_prop "baseVal" props) as [| | b | s | p | l]; try reflexivity.
    cbn. destruct (String.eqb s ""); reflexivity.
  - intros [H | H]; rewrite H; reflexivity.
Qed.

Lemma link_of_one_anchor_witness :
  kept_hrefs [JsObject [("href", JsString " ")]] = [" "] /\
  kept_hrefs [JsObject [("href", JsObject [("animVal", JsString "#a");
                                           ("baseVal", JsString "#b")])]] = ["#b"] /\
  kept_hrefs [JsObject [("href", JsNull)]] = [].
Proof.
  split; [ | split].
  - apply (proj1 (link_of_one_anchor (JsObject [("href", JsString " ")])) " ").
    reflexivity.
  - apply (proj1 (proj2 (link_of_one_anchor
             (JsObject [("href", JsObject [("animVal", JsString "#a");
                                           ("baseVal", JsString "#b")])])))
             [("animVal", JsString "#a"); ("baseVal", JsString "#b")]).
    reflexivity.
  - apply (proj2 (proj2 (link_of_one_anchor (JsObject [("href", JsNull)])))).
    left. reflexivity.
Defined.

(** ** The status is only reported *)

Lemma main_early_or_reaches_nav (w : World) :
  (forall r, main (set_navigate_1 w r) = main w)
  \/ exists hostname, reaches_navigation w hostname.
Proof.
  destruct (Nat.lt_ge_cases (List.length (os_Args w)) 2) as [H | H].
  - left. intro r. rewrite (main_no_args w H).
    now rewrite (main_no_args (set_navigate_1 w r) H).
  - destruct (url_Parse w (rawURL w)) as [hostname|e] eqn:Hp.
    + destruct (os_MkdirAll w (folderPath w hostname)) as [e|] eqn:Hm.
      * left. intro r. rewrite (main_mkdir_fails w hostname e H Hp Hm).
        now rewrite (main_mkdir_fails (set_navigate_1 w r) hostname e H Hp Hm).
      * right. exists hostname. repeat split; assumption.
    + left. intro r. rewrite (main_bad_url w e H Hp).
      now rewrite (main_bad_url (set_navigate_1 w r) e H Hp).
Qed.

(** X15: the captured status decides nothing: with the same error value of
    the first navigation, any other responses seen by the listener (a 404 or
    500 of the page included) lead to the same file-system calls, the same
    browser actions and the same way of ending. *)
Theorem status_decides_nothing (w : World) (evs : list TargetEvent) :
  let w' := set_navigate_1 w {| nav_events := evs; nav_err := nav_err (navigate_1 w) |} in
  fs_ops (trace (main w')) = fs_ops (trace (main w)) /\
  browser_actions (trace (main w')) = browser_actions (trace (main w)) /\
  exited (main w') = exited (main w).
Proof.
  intro w'. subst w'.
  destruct (main_early_or_reaches_nav w) as [H | [hostname Hr]].
  - rewrite H. repeat split.
  - set (w' := set_navigate_1 w _).
    assert (Hr' : reaches_navigation w' hostname) by exact Hr.
    rewrite (main_fs_ops _ _ Hr), (main_fs_ops _ _ Hr').
    rewrite (main_actions _ _ Hr), (main_actions _ _ Hr').
    rewrite (main_exited _ _ Hr), (main_exited _ _ Hr').
    rewrite !save_html_fs_ops, !save_screenshot_fs_ops, !save_links_fs_ops.
    repeat split.
Qed.
